(** * Students and rooms over JSON files

    A shallow embedding of [students_rooms/repositories.py] (the JSON-backed
    room and student repositories, the combiner and the loader) and of the
    request handlers of [students_rooms/views.py], followed by the
    properties of the repository and combination layer and of the handlers
    built on it.

    Layout:
    - [Py]: the fragment of Python's dynamic semantics the repositories rely
      on (scalars as they come out of [json.load], [==], [>], [+], [int],
      [str], [max], exceptions);
    - [Store]: the files, and the state-and-exception monad every repository
      method runs in;
    - one module per class of the source: the repositories, [DataCombiner],
      [JsonDataLoader], [CombinedViewSet], [RoomViewSet], [StudentViewSet];
    - the vocabulary of the properties, then the properties. *)

From Stdlib Require Import ZArith String Ascii List Sorted Lia.
From stdpp Require Import base option list gmap strings pretty.

Local Open Scope string_scope.
Local Open Scope Z_scope.

(* ===================================================================== *)
(** ** Python values and built-ins *)
(* ===================================================================== *)

Module Py.

(** The scalars a flat JSON object holds after [json.load]: [null],
    [true]/[false], integers and strings.  Floats and nested containers do
    not occur in the stored records (room: id, name; student: id, name,
    room) and are left out of the model. *)
Inductive value : Type :=
  | VNone
  | VBool (b : bool)
  | VInt (z : Z)
  | VStr (s : string).

#[global] Instance value_eq_dec : EqDecision value.
Proof. solve_decision. Defined.

(** A raw record: one JSON object, a [Dict[str, Any]]. *)
Abbreviation record := (gmap string value).

(** The exceptions that can leave the modelled code. *)
Inductive exn : Type :=
  | KeyError (key : string)
  | TypeError
  | ValueError
  | FileNotFoundError (path : string)
  | JSONDecodeError
  | UnicodeDecodeError
  | RepositoryError (msg : string).

Inductive result (A : Type) : Type :=
  | Ok (a : A)
  | Raise (e : exn).
Arguments Ok {A} a.
Arguments Raise {A} e.

#[global] Instance result_ret : MRet result := @Ok.
#[global] Instance result_bind : MBind result := fun A B f m =>
  match m with
  | Ok a => f a
  | Raise e => Raise e
  end.
#[global] Instance result_fmap : FMap result := fun A B f m =>
  match m with
  | Ok a => Ok (f a)
  | Raise e => Raise e
  end.

(** [bool] is a subclass of [int]: the numeric reading of a value. *)
Definition as_int (v : value) : option Z :=
  match v with
  | VBool b => Some (Z.b2z b)
  | VInt z => Some z
  | VNone | VStr _ => None
  end.

(** [a == b]. *)
Definition py_eq (a b : value) : bool :=
  match as_int a, as_int b with
  | Some x, Some y => x =? y
  | None, None =>
      match a, b with
      | VNone, VNone => true
      | VStr s, VStr t => String.eqb s t
      | _, _ => false
      end
  | _, _ => false
  end.

(** [a != b]. *)
Definition py_ne (a b : value) : bool := negb (py_eq a b).

(** [a > b]: defined between numbers and between strings only. *)
Definition py_gt (a b : value) : result bool :=
  match as_int a, as_int b with
  | Some x, Some y => Ok (y <? x)
  | None, None =>
      match a, b with
      | VStr s, VStr t => Ok (String.ltb t s)
      | _, _ => Raise TypeError
      end
  | _, _ => Raise TypeError
  end.

(** [a + b]. *)
Definition py_add (a b : value) : result value :=
  match as_int a, as_int b with
  | Some x, Some y => Ok (VInt (x + y))
  | None, None =>
      match a, b with
      | VStr s, VStr t => Ok (VStr (s +:+ t))
      | _, _ => Raise TypeError
      end
  | _, _ => Raise TypeError
  end.

(** [d[key]] and [d.get(key)]. *)
Definition getitem (d : record) (key : string) : result value :=
  match d !! key with
  | Some v => Ok v
  | None => Raise (KeyError key)
  end.

Definition get (d : record) (key : string) : value :=
  default VNone (d !! key).

(** *** Text

    A [str] is a sequence of code points; the model keeps its UTF-8 bytes
    (a lone surrogate, which a [str] can hold, as its three bytes).
    [chars] cuts the bytes into characters, each with its code point.  A
    byte that starts no sequence of the shortest form is kept as a
    character of its own, numbered U+DC00 + byte as the [surrogateescape]
    handler does; it is neither white space nor a digit. *)
Definition continuation (c : ascii) : option N :=
  let b := N_of_ascii c in
  if ((128 <=? b) && (b <? 192))%N then Some (b - 128)%N else None.

Definition stray (c : ascii) : N * string :=
  ((56320 + N_of_ascii c)%N, String c EmptyString).

Fixpoint chars (s : string) : list (N * string) :=
  match s with
  | EmptyString => []
  | String c s1 =>
      let b := N_of_ascii c in
      if (b <? 128)%N then (b, String c EmptyString) :: chars s1
      else if ((192 <=? b) && (b <? 224))%N then
        match s1 with
        | String c1 s2 =>
            match continuation c1 with
            | Some x1 =>
                let p := ((b - 192) * 64 + x1)%N in
                if (128 <=? p)%N
                then (p, String c (String c1 EmptyString)) :: chars s2
                else stray c :: chars s1
            | None => stray c :: chars s1
            end
        | EmptyString => stray c :: chars s1
        end
      else if ((224 <=? b) && (b <? 240))%N then
        match s1 with
        | String c1 (String c2 s3) =>
            match continuation c1, continuation c2 with
            | Some x1, Some x2 =>
                let p := ((b - 224) * 4096 + x1 * 64 + x2)%N in
                if (2048 <=? p)%N
                then (p, String c (String c1 (String c2 EmptyString)))
                     :: chars s3
                else stray c :: chars s1
            | _, _ => stray c :: chars s1
            end
        | _ => stray c :: chars s1
        end
      else if ((240 <=? b) && (b <? 248))%N then
        match s1 with
        | String c1 (String c2 (String c3 s4)) =>
            match continuation c1, continuation c2, continuation c3 with
            | Some x1, Some x2, Some x3 =>
                let p := ((b - 240) * 262144 + x1 * 4096 + x2 * 64 + x3)%N in
                if ((65536 <=? p) && (p <=? 1114111))%N
                then (p, String c (String c1 (String c2 (String c3 EmptyString))))
                     :: chars s4
                else stray c :: chars s1
            | _, _, _ => stray c :: chars s1
            end
        | _ => stray c :: chars s1
        end
      else stray c :: chars s1
  end.

(** [PyUnicode_IS_ASCII]: every code point is below 128. *)
Fixpoint is_ascii (s : string) : bool :=
  match s with
  | EmptyString => true
  | String c s' => (N_of_ascii c <? 128)%N && is_ascii s'
  end.

(** [Py_UNICODE_ISSPACE]: the white space of [str.strip] and
    [str.isspace].  It holds the four separators U+001C..U+001F. *)
Definition Py_UNICODE_ISSPACE (p : N) : bool :=
  ((9 <=? p) && (p <=? 13) || (28 <=? p) && (p <=? 32)
   || (p =? 133) || (p =? 160) || (p =? 5760)
   || (8192 <=? p) && (p <=? 8202) || (p =? 8232) || (p =? 8233)
   || (p =? 8239) || (p =? 8287) || (p =? 12288))%N.

(** [Py_ISSPACE]: the white space of the C locale, the one the number
    parser skips.  U+001C..U+001F are not in it. *)
Definition Py_ISSPACE (c : ascii) : bool :=
  let n := N_of_ascii c in
  ((9 <=? n) && (n <=? 13) || (n =? 32))%N.

(** [Py_UNICODE_TODECIMAL].  The decimal digits (category Nd) come in runs
    of ten, zero first; [decimal_zeros] lists the zero of each run, as of
    Unicode 14.0 (the tables of CPython 3.11). *)
Definition decimal_zeros : list N :=
  [48; 1632; 1776; 1984; 2406; 2534; 2662; 2790; 2918; 3046; 3174; 3302;
   3430; 3558; 3664; 3792; 3872; 4160; 4240; 6112; 6160; 6470; 6608;
   6784; 6800; 6992; 7088; 7232; 7248; 42528; 43216; 43264; 43472; 43504;
   43600; 44016; 65296; 66720; 68912; 69734; 69872; 69942; 70096; 70384;
   70736; 70864; 71248; 71360; 71472; 71904; 72016; 72784; 73040; 73120;
   92768; 92864; 93008; 120782; 120792; 120802; 120812; 120822; 123200;
   123632; 125264; 130032]%N.

Definition Py_UNICODE_TODECIMAL (p : N) : option N :=
  (fun z => (p - z)%N)
    <$> List.find (fun z => ((z <=? p) && (p <? z + 10))%N) decimal_zeros.

(** [_PyUnicode_TransformDecimalAndSpaceToASCII] on a string that is not
    ASCII: code points below 127 stay, white space becomes a blank, a
    decimal digit becomes its ASCII digit, and the text is cut after the
    first other character, replaced by a question mark. *)
Fixpoint to_ascii (l : list (N * string)) : string :=
  match l with
  | [] => EmptyString
  | (p, _) :: l' =>
      if (p <? 127)%N then String (ascii_of_N p) (to_ascii l')
      else if Py_UNICODE_ISSPACE p then String " " (to_ascii l')
      else match Py_UNICODE_TODECIMAL p with
           | Some d => String (ascii_of_N (48 + d)) (to_ascii l')
           | None => String "?" EmptyString
           end
  end.

(** [PyLong_FromString], base 10, on the ASCII text: surrounding white
    space, an optional sign, then digits, single underscores allowed
    between digits. *)
Definition digit_of (c : ascii) : option Z :=
  let n := nat_of_ascii c in
  if ((48 <=? n) && (n <=? 57))%nat then Some (Z.of_nat n - 48) else None.

Fixpoint skip_space (s : string) : string :=
  match s with
  | String c s' => if Py_ISSPACE c then skip_space s' else s
  | EmptyString => s
  end.

(** [digits acc after_digit s]: reads the digit run; what follows it must be
    white space only.  [after_digit] tells whether an underscore may come
    next. *)
Fixpoint digits (acc : Z) (after_digit : bool) (s : string) : option Z :=
  match s with
  | EmptyString => if after_digit then Some acc else None
  | String c s' =>
      match digit_of c with
      | Some d => digits (10 * acc + d) true s'
      | None =>
          if negb after_digit then None
          else if Ascii.eqb c "_" then
            match s' with
            | String c' _ => if digit_of c' is Some _ then digits acc false s' else None
            | EmptyString => None
            end
          else if String.eqb (skip_space s) "" then Some acc
          else None
      end
  end.

Definition int_of_ascii (s : string) : option Z :=
  match skip_space s with
  | String "-" s' => Z.opp <$> digits 0 false s'
  | String "+" s' => digits 0 false s'
  | s' => digits 0 false s'
  end.

(** [int(s)] for a string ([PyLong_FromUnicodeObject]): an ASCII string is
    parsed as it is, any other after the transformation above. *)
Definition int_of_str (s : string) : option Z :=
  int_of_ascii (if is_ascii s then s else to_ascii (chars s)).

(** [int(v)]. *)
Definition py_int (v : value) : result Z :=
  match v with
  | VNone => Raise TypeError
  | VBool b => Ok (Z.b2z b)
  | VInt z => Ok z
  | VStr s =>
      match int_of_str s with
      | Some z => Ok z
      | None => Raise ValueError
      end
  end.

(** [str(v)]. *)
Definition py_str (v : value) : string :=
  match v with
  | VNone => "None"
  | VBool true => "True"
  | VBool false => "False"
  | VInt z => pretty z
  | VStr s => s
  end.

(** [max((key(x) for x in xs), default=d)]: the generator is consumed one
    element at a time, the running maximum is replaced when the new element
    is [>] it. *)
Fixpoint max_loop {A} (key : A -> result value) (m : value) (xs : list A)
  : result value :=
  match xs with
  | [] => Ok m
  | x :: xs' =>
      v ← key x;
      gt ← py_gt v m;
      max_loop key (if gt : bool then v else m) xs'
  end.

Definition py_max {A} (key : A -> result value) (xs : list A) (d : value)
  : result value :=
  match xs with
  | [] => Ok d
  | x :: xs' => m ← key x; max_loop key m xs'
  end.

(** [[x for x in xs if p(x)]] where the test can raise. *)
Fixpoint filter_r {A} (p : A -> result bool) (xs : list A) : result (list A) :=
  match xs with
  | [] => Ok []
  | x :: xs' =>
      b ← p x;
      rest ← filter_r p xs';
      Ok (if b : bool then x :: rest else rest)
  end.

(** A [for] loop that appends [f x] for each [x], where [f] can raise. *)
Fixpoint map_r {A B} (f : A -> result B) (xs : list A) : result (list B) :=
  match xs with
  | [] => Ok []
  | x :: xs' => y ← f x; rest ← map_r f xs'; Ok (y :: rest)
  end.

(** A [for] loop threading an accumulator, where the body can raise. *)
Fixpoint fold_r {A B} (f : B -> A -> result B) (acc : B) (xs : list A)
  : result B :=
  match xs with
  | [] => Ok acc
  | x :: xs' => acc' ← f acc x; fold_r f acc' xs'
  end.

(** The first element satisfying [p], with its position: where a
    [for x in xs: if p(x): ... return] loop stops. *)
Fixpoint find_first {A} (p : A -> bool) (xs : list A) : option (nat * A) :=
  match xs with
  | [] => None
  | x :: xs' =>
      if p x then Some (O, x)
      else prod_map S (fun a => a) <$> find_first p xs'
  end.

(** A [dict] keyed by values: keys are compared with [==] (so [True] and
    [1] are one key) and iteration follows first insertion. *)
Section Dict.
Context {V : Type}.

Definition dict : Type := list (value * V).

Definition dict_contains (d : dict) (k : value) : bool :=
  existsb (fun kv => py_eq (fst kv) k) d.

(** [d[k] = v]: an existing key keeps its place and its key object. *)
Fixpoint dict_set (d : dict) (k : value) (v : V) : dict :=
  match d with
  | [] => [(k, v)]
  | (k', v') :: d' =>
      if py_eq k' k then (k', v) :: d' else (k', v') :: dict_set d' k v
  end.

(** In-place change of the object stored under [k]. *)
Fixpoint dict_alter (f : V -> V) (d : dict) (k : value) : dict :=
  match d with
  | [] => []
  | (k', v') :: d' =>
      if py_eq k' k then (k', f v') :: d' else (k', v') :: dict_alter f d' k
  end.

Definition dict_values (d : dict) : list V := map snd d.
End Dict.
Arguments dict V : clear implicits.

(** A [for x in xs: if p(x): return ...] loop where the test can raise:
    the first element that passes, none when the loop runs out. *)
Fixpoint find_r {A} (p : A -> result bool) (xs : list A) : result (option A) :=
  match xs with
  | [] => Ok None
  | x :: xs' => b ← p x; if b : bool then Ok (Some x) else find_r p xs'
  end.

(** [s.split(sep)] for a one-character separator: never empty, the empty
    string gives one empty piece. *)
Fixpoint split (sep : ascii) (s : string) : list string :=
  match s with
  | EmptyString => [EmptyString]
  | String c s' =>
      if Ascii.eqb c sep then EmptyString :: split sep s'
      else match split sep s' with
           | t :: ts => String c t :: ts
           | [] => [String c EmptyString]
           end
  end.

(** [s.strip()]: the white space characters of both ends are dropped. *)
Fixpoint lstrip_chars (l : list (N * string)) : list (N * string) :=
  match l with
  | (p, _) :: l' => if Py_UNICODE_ISSPACE p then lstrip_chars l' else l
  | [] => []
  end.

Definition rstrip_chars (l : list (N * string)) : list (N * string) :=
  rev (lstrip_chars (rev l)).

Definition strip (s : string) : string :=
  foldr String.append EmptyString
    (map snd (rstrip_chars (lstrip_chars (chars s)))).

(** Truth value of a string: non-empty. *)
Definition truthy (s : string) : bool := negb (String.eqb s "").

End Py.

Import Py.


(* ===================================================================== *)
(** ** Files and the monad of repository methods *)
(* ===================================================================== *)

Module Store.

(** What a file holds, as [open(path, "r", encoding="utf-8")] and
    [json.load] see it: bytes that are not UTF-8 text, text that is not
    JSON, or the top-level array of flat objects. *)
Inductive file : Type :=
  | Undecodable
  | Malformed
  | Doc (items : list record).

(** The file system, and the paths written so far (oldest first). *)
Record world : Type := World {
  files : gmap string file;
  writes : list string
}.

(** A method either returns or raises, and leaves a world behind in both
    cases. *)
Definition M (A : Type) : Type := world -> result A * world.

#[global] Instance M_ret : MRet M := fun A a w => (Ok a, w).
#[global] Instance M_bind : MBind M := fun A B f m w =>
  match m w with
  | (Ok a, w') => f a w'
  | (Raise e, w') => (Raise e, w')
  end.

Definition raise {A} (e : exn) : M A := fun w => (Raise e, w).

(** A computation that does not touch the files. *)
Definition lift {A} (r : result A) : M A := fun w => (r, w).

(** [try: body / except ...: handler]: [handler e = None] when no clause
    matches [e]. *)
Definition try_except {A} (body : M A) (handler : exn -> option (M A)) : M A :=
  fun w =>
    match body w with
    | (Ok a, w') => (Ok a, w')
    | (Raise e, w') =>
        match handler e with
        | Some h => h w'
        | None => (Raise e, w')
        end
    end.

(** [open(path, "r")]. *)
Definition open_r (path : string) : M file := fun w =>
  match files w !! path with
  | Some f => (Ok f, w)
  | None => (Raise (FileNotFoundError path), w)
  end.

(** [json.load(f)]: [f.read()] decodes the bytes and raises
    [UnicodeDecodeError] when they are not UTF-8; the parser raises
    [JSONDecodeError] on text that is not JSON. *)
Definition json_load (f : file) : M (list record) :=
  match f with
  | Doc items => mret items
  | Malformed => raise JSONDecodeError
  | Undecodable => raise UnicodeDecodeError
  end.

(** [with open(path, "w") as f: json.dump(items, f, ...)].  Storage is
    idealised: the write always succeeds and replaces the file whole.  A
    write that fails (a read-only or full disk), which can leave the file
    truncated, is outside the model. *)
Definition dump_w (path : string) (items : list record) : M unit := fun w =>
  (Ok tt, {| files := <[path := Doc items]> (files w);
             writes := (writes w ++ [path])%list |}).

End Store.

Import Store.

(* ===================================================================== *)
(** ** The repositories, the combiner, the loader and the combined view *)
(* ===================================================================== *)

(** [@dataclass class Room]. *)
Module Room.
Record t : Type := mk { id : Z; name : string }.
End Room.

(** [@dataclass class Student]. *)
Module Student.
Record t : Type := mk { id : Z; name : string; room : Z }.
End Student.

(** Every repository object is its [file_path]. *)
Module JsonFileRepositoryMixin.

Definition _read (file_path : string) : M (list record) :=
  try_except
    (f ← open_r file_path; json_load f)
    (fun e =>
       match e with
       | FileNotFoundError _ => Some (mret [])
       | JSONDecodeError =>
           Some (raise (RepositoryError ("Invalid JSON in " +:+ file_path)))
       | _ => None
       end).

Definition _write (file_path : string) (items : list record) : M unit :=
  dump_w file_path items.

End JsonFileRepositoryMixin.

Module JsonRoomsRepository.
Import JsonFileRepositoryMixin.

Definition _next_id (rooms : list record) : result value :=
  m ← py_max (fun r => getitem r "id") rooms (VInt 0);
  py_add m (VInt 1).

Definition create (self : string) (name : string) : M Room.t :=
  rooms ← _read self;
  nid ← lift (_next_id rooms);
  let room : record := <["id" := nid]> (<["name" := VStr name]> ∅) in
  let rooms := (rooms ++ [room])%list in
  _ ← _write self rooms;
  lift (i ← getitem room "id" ≫= py_int;
        n ← py_str <$> getitem room "name";
        Ok (Room.mk i n)).

(** The loop stops at the first record whose id is [==] [room_id]; that
    record is an element of [rooms] and is changed in place, so the list
    written back holds the new name at the same position. *)
Definition update (self : string) (room_id : Z) (name : string)
  : M (option Room.t) :=
  rooms ← _read self;
  match find_first (fun r => py_eq (get r "id") (VInt room_id)) rooms with
  | Some (k, r) =>
      let r : record := <["name" := VStr name]> r in
      let rooms := <[k := r]> rooms in
      _ ← _write self rooms;
      lift (i ← getitem r "id" ≫= py_int;
            n ← py_str <$> getitem r "name";
            Ok (Some (Room.mk i n)))
  | None => mret None
  end.

Definition delete (self : string) (room_id : Z) : M bool :=
  rooms ← _read self;
  let new_rooms :=
    List.filter (fun r => py_ne (get r "id") (VInt room_id)) rooms in
  if (length new_rooms =? length rooms)%nat then mret false
  else _ ← _write self new_rooms; mret true.

(** [Room(id=int(r.get("id")), name=str(r.get("name")))]. *)
Definition normalize (r : record) : result Room.t :=
  i ← py_int (Py.get r "id");
  Ok (Room.mk i (py_str (Py.get r "name"))).

(** ([list] and [get] come first in the class; they stand last here
    because their names hide the list type and [d.get] from what follows
    them.) *)
Definition list (self : string) : M (list Room.t) :=
  rooms_raw ← _read self;
  lift (map_r normalize rooms_raw).

(** [room_id] is an [int], on which [int(room_id)] is [room_id]. *)
Definition get (self : string) (room_id : Z) : M (option Room.t) :=
  rooms ← _read self;
  lift (found ← find_r (fun r => i ← py_int (Py.get r "id");
                                 Ok (i =? room_id)) rooms;
        match found with
        | Some r => Some <$> normalize r
        | None => Ok None
        end).

End JsonRoomsRepository.

Module JsonStudentsRepository.
Import JsonFileRepositoryMixin.

(** [Student(id=int(s.get("id")), name=str(s.get("name")),
    room=int(s.get("room")))]. *)
Definition normalize (s : record) : result Student.t :=
  i ← py_int (get s "id");
  let n := py_str (get s "name") in
  r ← py_int (get s "room");
  Ok (Student.mk i n r).

Definition _next_id (students : list record) : result value :=
  m ← py_max (fun s => getitem s "id") students (VInt 0);
  py_add m (VInt 1).

Definition create (self : string) (name : string) (room : Z) : M Student.t :=
  students ← _read self;
  nid ← lift (_next_id students);
  let student : record :=
    <["id" := nid]> (<["name" := VStr name]> (<["room" := VInt room]> ∅)) in
  let students := (students ++ [student])%list in
  _ ← _write self students;
  lift (i ← getitem student "id" ≫= py_int;
        n ← py_str <$> getitem student "name";
        r ← getitem student "room" ≫= py_int;
        Ok (Student.mk i n r)).

(** As for rooms, the matching record is changed in place; only the
    supplied fields are overwritten, and the file is written before the
    result is built. *)
Definition update (self : string) (student_id : Z)
    (name : option string) (room : option Z) : M (option Student.t) :=
  students ← _read self;
  match find_first (fun s => py_eq (get s "id") (VInt student_id)) students with
  | Some (k, s) =>
      let s : record :=
        match name with Some n => <["name" := VStr n]> s | None => s end in
      let s : record :=
        match room with Some r => <["room" := VInt r]> s | None => s end in
      let students := <[k := s]> students in
      _ ← _write self students;
      lift (i ← getitem s "id" ≫= py_int;
            n ← py_str <$> getitem s "name";
            r ← py_int (get s "room");
            Ok (Some (Student.mk i n r)))
  | None => mret None
  end.

Definition delete (self : string) (student_id : Z) : M bool :=
  students ← _read self;
  let new_students :=
    List.filter (fun s => py_ne (get s "id") (VInt student_id)) students in
  if (length new_students =? length students)%nat then mret false
  else _ ← _write self new_students; mret true.

Definition move (self : string) (student_id : Z) (to_room_id : Z)
  : M (option Student.t) :=
  update self student_id None (Some to_room_id).

(** [ids_in] and [room_in] are iterables of [int], on which [int(i)] is
    [i]; [None] is an argument left out.  (The method comes first in the
    class; it stands last here because its name hides the type of lists
    from what follows it.) *)
Definition list (self : string) (ids_in room_in : option (list Z))
  : M (list Student.t) :=
  items ← _read self;
  items ← match ids_in with
          | Some ids =>
              let ids_set : gset Z := list_to_set ids in
              lift (filter_r
                      (fun s => i ← py_int (get s "id");
                                Ok (bool_decide (i ∈ ids_set)))
                      items)
          | None => mret items
          end;
  items ← match room_in with
          | Some rooms =>
              let room_set : gset Z := list_to_set rooms in
              lift (filter_r
                      (fun s => r ← py_int (get s "room");
                                Ok (bool_decide (r ∈ room_set)))
                      items)
          | None => mret items
          end;
  lift (map_r normalize items).

Definition get (self : string) (student_id : Z) : M (option Student.t) :=
  students ← _read self;
  lift (found ← find_r (fun s => i ← py_int (Py.get s "id");
                                 Ok (i =? student_id)) students;
        match found with
        | Some s => Some <$> normalize s
        | None => Ok None
        end).

End JsonStudentsRepository.

(** The [{'id': ..., 'name': ...}] entries of a room's student list. *)
Module StudentEntry.
Record t : Type := mk { id : value; name : value }.
End StudentEntry.

(** The [{'id': ..., 'name': ..., 'students': [...]}] entries returned by
    [combine]. *)
Module CombinedRoom.
Record t : Type := mk { id : value; name : value; students : list StudentEntry.t }.

Definition append (e : StudentEntry.t) (c : t) : t :=
  mk (id c) (name c) (students c ++ [e])%list.
End CombinedRoom.

Module DataCombiner.

Definition combine (rooms students : list record)
  : result (list CombinedRoom.t) :=
  room_dict ← fold_r
    (fun (d : dict CombinedRoom.t) room =>
       k ← getitem room "id";
       i ← getitem room "id";
       n ← getitem room "name";
       Ok (dict_set d k (CombinedRoom.mk i n [])))
    [] rooms;
  room_dict ← fold_r
    (fun (d : dict CombinedRoom.t) student =>
       room_id ← getitem student "room";
       if dict_contains d room_id then
         i ← getitem student "id";
         n ← getitem student "name";
         Ok (dict_alter (CombinedRoom.append (StudentEntry.mk i n)) d room_id)
       else Ok d)
    room_dict students;
  Ok (dict_values room_dict).

End DataCombiner.

Module JsonDataLoader.

Definition load (file_path : string) : M (list record) :=
  f ← open_r file_path; json_load f.

End JsonDataLoader.

(** [config/settings.py]: the two storage paths. *)
Record settings : Type := Settings {
  JSON_ROOMS_PATH : string;
  JSON_STUDENTS_PATH : string
}.

Module CombinedViewSet.

(** The body of the [Response]. *)
Definition list (st : settings) : M (list CombinedRoom.t) :=
  rooms ← JsonDataLoader.load (JSON_ROOMS_PATH st);
  students ← JsonDataLoader.load (JSON_STUDENTS_PATH st);
  lift (DataCombiner.combine rooms students).

End CombinedViewSet.

(* ===================================================================== *)
(** ** The request handlers of [students_rooms/views.py] *)
(* ===================================================================== *)

(** What a serializer makes of the request body: [is_valid()] fails and
    leaves [errors], or succeeds and leaves [validated_data].  The field
    checks themselves belong to the framework and are not modelled. *)
Inductive validation (A : Type) : Type :=
  | Invalid (errors : list (string * list string))
  | Valid (validated_data : A).
Arguments Invalid {A} errors.
Arguments Valid {A} validated_data.

(** The first argument of [Response]: nothing, what a serializer renders
    ([StudentSerializer(x).data] is kept with its [x], which [move] can
    pass as [None]), or an error object with its [code], [message] and
    optional [details]. *)
Inductive body : Type :=
  | DNone
  | DRoom (r : Room.t)
  | DRooms (rs : list Room.t)
  | DStudent (s : option Student.t)
  | DStudents (ss : list Student.t)
  | DError (code message : string)
           (details : option (list (string * list string))).

Module Response.
Record t : Type := mk { data : body; status : Z }.
End Response.

(** [rooms_repo = JsonRoomsRepository()] and
    [students_repo = JsonStudentsRepository()]: without an argument the
    constructors take the path from the settings. *)
Definition rooms_repo (st : settings) : string := JSON_ROOMS_PATH st.
Definition students_repo (st : settings) : string := JSON_STUDENTS_PATH st.

Definition not_found (detail : string) : Response.t :=
  Response.mk (DError "not_found" detail None) 404.

(** [[int(x) for x in raw.split(",") if x.strip()]], the comprehension the
    list handlers apply to a query parameter. *)
Definition comma_ints (raw : string) : result (list Z) :=
  map_r (fun x => py_int (VStr x))
        (List.filter (fun x => truthy (strip x)) (split "," raw)).

(** [int(pk) if pk is not None else 0]. *)
Definition pk_id (pk : option string) : result Z :=
  match pk with
  | Some p => py_int (VStr p)
  | None => Ok 0
  end.

Module RoomViewSet.

(** [ids_in_param] is [request.query_params.get("ids__in")]. *)
Definition list (st : settings) (ids_in_param : option string) : M Response.t :=
  rooms ← JsonRoomsRepository.list (rooms_repo st);
  rooms ← match ids_in_param with
          | Some raw =>
              if truthy raw then
                ids ← lift (comma_ints raw);
                let ids : gset Z := list_to_set ids in
                mret (List.filter (fun r => bool_decide (Room.id r ∈ ids)) rooms)
              else mret rooms
          | None => mret rooms
          end;
  mret (Response.mk (DRooms rooms) 200).

(** [serializer] is [RoomSerializer(data=request.data)] after [is_valid()];
    its validated data is the name. *)
Definition create (st : settings) (serializer : validation string)
  : M Response.t :=
  match serializer with
  | Invalid errors =>
      mret (Response.mk
              (DError "validation_error" "Invalid room data" (Some errors)) 400)
  | Valid name =>
      created ← JsonRoomsRepository.create (rooms_repo st) name;
      mret (Response.mk (DRoom created) 201)
  end.

Definition retrieve (st : settings) (pk : option string) : M Response.t :=
  room_id ← lift (pk_id pk);
  room ← JsonRoomsRepository.get (rooms_repo st) room_id;
  match room with
  | None => mret (not_found "Room not found")
  | Some room => mret (Response.mk (DRoom room) 200)
  end.

Definition update (st : settings) (pk : option string)
    (serializer : validation string) : M Response.t :=
  room_id ← lift (pk_id pk);
  match serializer with
  | Invalid errors =>
      mret (Response.mk
              (DError "validation_error" "Invalid room data" (Some errors)) 400)
  | Valid name =>
      updated ← JsonRoomsRepository.update (rooms_repo st) room_id name;
      match updated with
      | None => mret (not_found "Room not found")
      | Some updated => mret (Response.mk (DRoom updated) 200)
      end
  end.

Definition destroy (st : settings) (pk : option string) : M Response.t :=
  room_id ← lift (pk_id pk);
  deleted ← JsonRoomsRepository.delete (rooms_repo st) room_id;
  if deleted : bool then mret (Response.mk DNone 204)
  else mret (not_found "Room not found").

Definition students (st : settings) (pk : option string) : M Response.t :=
  room_id ← lift (pk_id pk);
  room ← JsonRoomsRepository.get (rooms_repo st) room_id;
  match room with
  | None => mret (not_found "Room not found")
  | Some _ =>
      students ← JsonStudentsRepository.list (students_repo st)
                   None (Some [room_id]);
      mret (Response.mk (DStudents students) 200)
  end.

End RoomViewSet.

Module StudentViewSet.

(** [ids_in] and [room_in] are [request.query_params.get("ids__in")] and
    [request.query_params.get("room__in")]. *)
Definition list (st : settings) (ids_in room_in : option string)
  : M Response.t :=
  ids ← lift match ids_in with
             | Some raw => if truthy raw then Some <$> comma_ints raw else Ok None
             | None => Ok None
             end;
  rooms ← lift match room_in with
               | Some raw => if truthy raw then Some <$> comma_ints raw else Ok None
               | None => Ok None
               end;
  students ← JsonStudentsRepository.list (students_repo st) ids rooms;
  mret (Response.mk (DStudents students) 200).

(** The validated data of [StudentSerializer] is the name and the room. *)
Definition create (st : settings) (serializer : validation (string * Z))
  : M Response.t :=
  match serializer with
  | Invalid errors =>
      mret (Response.mk
              (DError "validation_error" "Invalid student data" (Some errors))
              400)
  | Valid (name, room) =>
      target ← JsonRoomsRepository.get (rooms_repo st) room;
      match target with
      | None =>
          mret (Response.mk
                  (DError "room_not_found" "Target room does not exist" None)
                  400)
      | Some _ =>
          created ← JsonStudentsRepository.create (students_repo st) name room;
          mret (Response.mk (DStudent (Some created)) 201)
      end
  end.

Definition retrieve (st : settings) (pk : option string) : M Response.t :=
  student_id ← lift (pk_id pk);
  student ← JsonStudentsRepository.get (students_repo st) student_id;
  match student with
  | None => mret (not_found "Student not found")
  | Some student => mret (Response.mk (DStudent (Some student)) 200)
  end.

Definition update (st : settings) (pk : option string)
    (serializer : validation (string * Z)) : M Response.t :=
  student_id ← lift (pk_id pk);
  match serializer with
  | Invalid errors =>
      mret (Response.mk
              (DError "validation_error" "Invalid student data" (Some errors))
              400)
  | Valid (name, room) =>
      target ← JsonRoomsRepository.get (rooms_repo st) room;
      match target with
      | None =>
          mret (Response.mk
                  (DError "room_not_found" "Target room does not exist" None)
                  400)
      | Some _ =>
          updated ← JsonStudentsRepository.update (students_repo st)
                      student_id (Some name) (Some room);
          match updated with
          | None => mret (not_found "Student not found")
          | Some updated => mret (Response.mk (DStudent (Some updated)) 200)
          end
      end
  end.

Definition destroy (st : settings) (pk : option string) : M Response.t :=
  student_id ← lift (pk_id pk);
  deleted ← JsonStudentsRepository.delete (students_repo st) student_id;
  if deleted : bool then mret (Response.mk DNone 204)
  else mret (not_found "Student not found").

(** The validated data of [MoveStudentSerializer] is [to_room_id]. *)
Definition move (st : settings) (pk : option string)
    (serializer : validation Z) : M Response.t :=
  student_id ← lift (pk_id pk);
  student ← JsonStudentsRepository.get (students_repo st) student_id;
  match student with
  | None => mret (not_found "Student not found")
  | Some _ =>
      match serializer with
      | Invalid errors =>
          mret (Response.mk
                  (DError "validation_error" "Invalid move payload" (Some errors))
                  400)
      | Valid to_room_id =>
          target ← JsonRoomsRepository.get (rooms_repo st) to_room_id;
          match target with
          | None =>
              mret (Response.mk
                      (DError "room_not_found" "Target room does not exist" None)
                      400)
          | Some _ =>
              moved ← JsonStudentsRepository.move (students_repo st)
                        student_id to_room_id;
              mret (Response.mk (DStudent moved) 200)
          end
      end
  end.

End StudentViewSet.

(* ===================================================================== *)
(** ** Vocabulary of the properties *)
(* ===================================================================== *)

Import JsonFileRepositoryMixin.

(** The world after [items] has been written to [path]. *)
Definition written (path : string) (items : list record) (w : world) : world :=
  {| files := <[path := Doc items]> (files w);
     writes := (writes w ++ [path])%list |}.

(** The integer id of a record, when it has one. *)
Definition id_of (r : record) : option Z :=
  match r !! "id" with
  | Some (VInt z) => Some z
  | _ => None
  end.

(** Every record carries an integer id (the data model of both
    collections). *)
Definition int_ids (items : list record) : bool :=
  forallb (fun r => bool_decide (is_Some (id_of r))) items.

Definition ids_of (items : list record) : list Z := omap id_of items.

(** [max(zs, default=d)] on integers. *)
Definition max_default (zs : list Z) (d : Z) : Z :=
  match zs with
  | [] => d
  | z :: zs' => fold_left Z.max zs' z
  end.

(** A readable collection with integer ids. *)
Definition holds (self : string) (w : world) (items : list record) : Prop :=
  _read self w = (Ok items, w) /\ int_ids items = true.

(** The test both [update] and [delete] apply to a record. *)
Definition has_id (i : Z) (r : record) : bool := py_eq (get r "id") (VInt i).

Definition absent (i : Z) (items : list record) : bool :=
  forallb (fun r => negb (has_id i r)) items.

(** The literal records [create] builds. *)
Definition room_record (i : Z) (name : string) : record :=
  <["id" := VInt i]> (<["name" := VStr name]> ∅).

Definition student_record (i : Z) (name : string) (room : Z) : record :=
  <["id" := VInt i]> (<["name" := VStr name]> (<["room" := VInt room]> ∅)).

(** *** Sequences of operations on one collection *)

Inductive op (A : Type) : Type :=
  | Create (args : A)
  | Delete (i : Z).
Arguments Create {A} args.
Arguments Delete {A} i.

(** Runs the operations in order and collects the ids [create] returned. *)
Fixpoint run {A} (create : A -> M Z) (delete : Z -> M bool) (ops : list (op A))
  : M (list Z) :=
  match ops with
  | [] => mret []
  | Create a :: ops' =>
      i ← create a; rest ← run create delete ops'; mret (i :: rest)
  | Delete i :: ops' =>
      _ ← delete i; run create delete ops'
  end.

Definition rooms_create (self : string) (name : string) : M Z :=
  r ← JsonRoomsRepository.create self name; mret (Room.id r).

Definition students_create (self : string) (a : string * Z) : M Z :=
  s ← JsonStudentsRepository.create self (fst a) (snd a); mret (Student.id s).

Definition rooms_run (self : string) : list (op string) -> M (list Z) :=
  run (rooms_create self) (JsonRoomsRepository.delete self).

Definition students_run (self : string) : list (op (string * Z)) -> M (list Z) :=
  run (students_create self) (JsonStudentsRepository.delete self).

(** The run returned, and each id it returned is strictly greater than
    every id returned before it and than every id of [old]. *)
Definition fresh (old : list Z) (r : result (list Z)) : Prop :=
  exists out,
    r = Ok out
    /\ StronglySorted Z.lt out
    /\ Forall (fun x => Forall (fun z => z < x) old) out.

(** The ids stored at [self] (none when the file cannot be read). *)
Definition stored_ids (self : string) (w : world) : list Z :=
  match fst (_read self w) with
  | Ok items => ids_of items
  | Raise _ => []
  end.

(** [i] is the largest id of [zs]. *)
Definition largest (zs : list Z) (i : Z) : bool :=
  existsb (Z.eqb i) zs && forallb (fun j => j <=? i) zs.

(** No [Delete] of the sequence removes the record that holds the largest
    id at the time it runs. *)
Fixpoint spares_largest {A} (create : A -> M Z) (delete : Z -> M bool)
    (self : string) (ops : list (op A)) (w : world) : bool :=
  match ops with
  | [] => true
  | Create a :: ops' =>
      spares_largest create delete self ops' (snd (create a w))
  | Delete i :: ops' =>
      negb (largest (stored_ids self w) i)
      && spares_largest create delete self ops' (snd (delete i w))
  end.

(** *** The filters of [StudentsRepository.list] *)

Definition room_of (r : record) : option Z :=
  match r !! "room" with
  | Some (VInt z) => Some z
  | _ => None
  end.

(** Every record carries an integer id and an integer room. *)
Definition int_students (items : list record) : bool :=
  forallb (fun s => bool_decide (is_Some (id_of s))
                    && bool_decide (is_Some (room_of s))) items.

(** An absent filter lets everything through; a supplied one lets through
    its members. *)
Definition passes (flt : option (list Z)) (z : Z) : bool :=
  match flt with
  | None => true
  | Some zs => bool_decide (z ∈ zs)
  end.

Definition selected (ids_in room_in : option (list Z)) (s : record) : bool :=
  passes ids_in (default 0 (id_of s)) && passes room_in (default 0 (room_of s)).

Definition to_student (s : record) : Student.t :=
  Student.mk (default 0 (id_of s)) (py_str (get s "name"))
             (default 0 (room_of s)).

(** *** The combined view as the specification words it *)

(** The entry a student contributes, and the entries of the students whose
    room is [==] the key [k], in student order. *)
Definition entry (s : record) : StudentEntry.t :=
  StudentEntry.mk (get s "id") (get s "name").

Definition entries_for (k : value) (students : list record)
  : list StudentEntry.t :=
  map entry (List.filter (fun s => py_eq k (get s "room")) students).

(** The students of room [r], in student order. *)
Definition students_in (r : record) (students : list record)
  : list StudentEntry.t :=
  entries_for (get r "id") students.

(** One entry per room, in room order. *)
Definition combine_spec (rooms students : list record) : list CombinedRoom.t :=
  map (fun r => CombinedRoom.mk (get r "id") (get r "name")
                                (students_in r students))
      rooms.

(** A combined room with further entries appended to its student list. *)
Definition extend (es : list StudentEntry.t) (c : CombinedRoom.t)
  : CombinedRoom.t :=
  CombinedRoom.mk (CombinedRoom.id c) (CombinedRoom.name c)
                  (CombinedRoom.students c ++ es)%list.

Definition room_ids (rooms : list record) : list value :=
  map (fun r => get r "id") rooms.

(** One turn of the second loop of [combine]. *)
Definition place (d : dict CombinedRoom.t) (student : record)
  : result (dict CombinedRoom.t) :=
  room_id ← getitem student "room";
  if dict_contains d room_id then
    i ← getitem student "id";
    n ← getitem student "name";
    Ok (dict_alter (CombinedRoom.append (StudentEntry.mk i n)) d room_id)
  else Ok d.

Definition room_keys (rooms : list record) : bool :=
  forallb (fun r => bool_decide (is_Some (r !! "id"))
                    && bool_decide (is_Some (r !! "name"))) rooms.

(** Pairwise different under [==]. *)
Fixpoint distinct (ks : list value) : bool :=
  match ks with
  | [] => true
  | k :: ks' => negb (existsb (fun k' => py_eq k' k) ks') && distinct ks'
  end.

(** A student names a room, and names itself when that room exists. *)
Definition student_keys (ks : list value) (s : record) : bool :=
  match s !! "room" with
  | None => false
  | Some rv =>
      if existsb (fun k => py_eq k rv) ks
      then bool_decide (is_Some (s !! "id")) && bool_decide (is_Some (s !! "name"))
      else true
  end.

(** *** Sample data *)

Definition room_A : record := room_record 1 "A".
Definition room_B : record := room_record 2 "B".
Definition student_X : record := student_record 10 "X" 1.
Definition student_Y : record := student_record 11 "Y" 3.
Definition student_Z : record := student_record 12 "Z" 1.

Definition no_files : world := World ∅ [].

Definition only_rooms : world :=
  World {[ "rooms.json" := Doc [room_A; room_B] ]} [].

Definition sample : world :=
  World {[ "rooms.json" := Doc [room_A; room_B];
           "students.json" := Doc [student_X; student_Y; student_Z] ]} [].

(* ===================================================================== *)
(** ** Vocabulary of the further properties *)
(* ===================================================================== *)

(** The room a record with an integer id is read as. *)
Definition to_room (r : record) : Room.t :=
  Room.mk (default 0 (id_of r)) (py_str (get r "name")).

(** Every file but the one at [self] is what it was. *)
Definition other_files_kept (self : string) (w w' : world) : Prop :=
  forall path, path <> self -> files w' !! path = files w !! path.

(** A world the handlers can work on: both files readable and distinct,
    rooms with integer ids, students with integer ids and rooms. *)
Definition sound (st : settings) (w : world)
    (rooms students : list record) : Prop :=
  rooms_repo st <> students_repo st
  /\ _read (rooms_repo st) w = (Ok rooms, w)
  /\ _read (students_repo st) w = (Ok students, w)
  /\ int_ids rooms = true
  /\ int_students students = true.

(** Every student's room is the id of a stored room. *)
Definition referenced (rooms students : list record) : bool :=
  forallb (fun s => negb (absent (default 0 (room_of s)) rooms)) students.

(** [",".join(str(z) for z in zs)]. *)
Definition comma_join (zs : list Z) : string :=
  String.concat "," (map pretty zs).

(** The collection at [self] is readable and its ids are integers, pairwise
    different. *)
Definition unique (self : string) (w : world) : Prop :=
  exists items,
    _read self w = (Ok items, w)
    /\ int_ids items = true
    /\ NoDup (ids_of items).

(** The record [JsonStudentsRepository.update] stores in place of [s]. *)
Definition updated (name : option string) (room : option Z) (s : record)
  : record :=
  let s : record :=
    match name with Some n => <["name" := VStr n]> s | None => s end in
  match room with Some r => <["room" := VInt r]> s | None => s end.

(** A computation that leaves every world as it found it. *)
Definition readonly {A} (m : M A) : Prop := forall w, snd (m w) = w.

(** A computation that changes no file but the one at [self]. *)
Definition confined {A} (self : string) (m : M A) : Prop :=
  forall w, other_files_kept self w (snd (m w)).

(** The exception [_read] raises on a file that cannot be decoded. *)
Definition read_error (self : string) (f : file) : option exn :=
  match f with
  | Undecodable => Some UnicodeDecodeError
  | Malformed => Some (RepositoryError ("Invalid JSON in " +:+ self))
  | Doc _ => None
  end.

(** A student record with the three keys [combine] may index. *)
Definition full_student (s : record) : bool :=
  bool_decide (is_Some (s !! "room"))
  && bool_decide (is_Some (s !! "id"))
  && bool_decide (is_Some (s !! "name")).

(** One turn of the first loop of [combine]. *)
Definition open_room (d : dict CombinedRoom.t) (room : record)
  : result (dict CombinedRoom.t) :=
  k ← getitem room "id";
  i ← getitem room "id";
  n ← getitem room "name";
  Ok (dict_set d k (CombinedRoom.mk i n [])).

(** What the first loop of [combine] keeps true of its dictionary, [seen]
    being the rooms read so far: keys pairwise different, every entry
    empty, filed under a key equal to its id, and made from a room read;
    every room read has its id among the keys; no more entries than rooms
    read. *)
Definition opened (seen : list record) (d : dict CombinedRoom.t) : Prop :=
  distinct (map fst d) = true
  /\ Forall (fun kc => py_eq (fst kc) (CombinedRoom.id (snd kc)) = true
                       /\ CombinedRoom.students (snd kc) = []
                       /\ exists r, In r seen
                            /\ CombinedRoom.id (snd kc) = get r "id"
                            /\ CombinedRoom.name (snd kc) = get r "name") d
  /\ Forall (fun r => dict_contains d (get r "id") = true) seen
  /\ (length d <= length seen)%nat.

(** No character of [s] is [c]. *)
Fixpoint avoids (c : ascii) (s : string) : bool :=
  match s with
  | EmptyString => true
  | String c' s' => negb (Ascii.eqb c' c) && avoids c s'
  end.

(** [plain s]: ASCII text without white space. *)
Fixpoint plain (s : string) : bool :=
  match s with
  | EmptyString => true
  | String c s' =>
      (N_of_ascii c <? 128)%N && negb (Py_UNICODE_ISSPACE (N_of_ascii c))
      && plain s'
  end.

(** A query parameter as a client writes it: left out, or the ids joined
    with commas. *)
Definition query (zs : option (list Z)) : option string := comma_join <$> zs.

(** The filter a query parameter ends up as: left out or empty, none. *)
Definition filter_of (zs : option (list Z)) : option (list Z) :=
  match zs with
  | Some (z :: zs') => Some (z :: zs')
  | _ => None
  end.

(** Referential integrity: a world the handlers can work on in which every
    student's room is the id of a stored room. *)
Definition integral (st : settings) (w : world) : Prop :=
  exists rooms students,
    sound st w rooms students /\ referenced rooms students = true.

(** The answers of the handlers to a request they turn down. *)
Definition room_not_found : Response.t :=
  Response.mk (DError "room_not_found" "Target room does not exist" None) 400.

Definition invalid (message : string) (errors : list (string * list string))
  : Response.t :=
  Response.mk (DError "validation_error" message (Some errors)) 400.

(** Two rooms and two students of the first of them. *)
Definition tidy : world :=
  World {[ "rooms.json" := Doc [room_A; room_B];
           "students.json" := Doc [student_X; student_Z] ]} [].

(* ===================================================================== *)
(** ** The built-ins at work *)
(* ===================================================================== *)

Example int_of_str_underscore : int_of_str " -1_000 " = Some (-1000).
Proof. reflexivity. Qed.

Example int_of_str_double_underscore : int_of_str "1__0" = None.
Proof. reflexivity. Qed.

Example int_of_str_trailing_text : int_of_str "12a" = None.
Proof. reflexivity. Qed.

Example int_of_str_sign_only : int_of_str "+" = None.
Proof. reflexivity. Qed.

(** The separators U+001C..U+001F are white space to [strip] and not to
    [int]: a piece made of one is skipped, a number next to one is
    rejected. *)
Example int_of_str_unit_separator :
  int_of_str (String "031" "3") = None
  /\ int_of_str (String "3" (String "028" "")) = None
  /\ strip (String "031" "") = ""
  /\ strip (String "031" "3") = "3".
Proof. repeat split. Qed.

(** Text that is not ASCII: U+0662, ARABIC-INDIC DIGIT TWO (bytes D9 A2), is
    read as 2; U+00A0, NO-BREAK SPACE (bytes C2 A0), is white space to both
    [int] and [strip]; U+00B2, SUPERSCRIPT TWO (bytes C2 B2), is no decimal
    digit. *)
Example int_of_str_arabic_indic :
  int_of_str (String "217" (String "162" "")) = Some 2
  /\ int_of_str (String "1" (String "217" (String "162" ""))) = Some 12.
Proof. repeat split. Qed.

Example int_of_str_no_break_space :
  int_of_str (String "194" (String "160" "3")) = Some 3
  /\ strip (String "194" (String "160" "3")) = "3".
Proof. repeat split. Qed.

Example int_of_str_superscript :
  int_of_str (String "194" (String "178" "")) = None.
Proof. reflexivity. Qed.

Example py_str_negative : py_str (VInt (-42)) = "-42".
Proof. reflexivity. Qed.

Example py_eq_bool_int : py_eq (VBool true) (VInt 1) = true.
Proof. reflexivity. Qed.

Example py_eq_str_int : py_eq (VStr "1") (VInt 1) = false.
Proof. reflexivity. Qed.

(** [_next_id] on ids that are not all integers: a lone [True] counts as 1,
    a string id cannot be incremented, a record without id is a
    [KeyError]. *)
Example next_id_of_true :
  JsonRoomsRepository._next_id [<["id" := VBool true]> ∅] = Ok (VInt 2).
Proof. reflexivity. Qed.

Example next_id_of_string :
  JsonRoomsRepository._next_id [<["id" := VStr "7"]> ∅] = Raise TypeError.
Proof. reflexivity. Qed.

Example next_id_without_id :
  JsonRoomsRepository._next_id [room_A; <["name" := VStr "B"]> ∅]
  = Raise (KeyError "id").
Proof. reflexivity. Qed.

(** The combined view of the specification's example. *)
Example combine_example :
  DataCombiner.combine [room_A; room_B] [student_X; student_Y]
  = Ok [CombinedRoom.mk (VInt 1) (VStr "A")
          [StudentEntry.mk (VInt 10) (VStr "X")];
        CombinedRoom.mk (VInt 2) (VStr "B") []].
Proof. reflexivity. Qed.

(** Query parameters: pieces are read with [int], blank ones are skipped,
    one that is not a number stops the reading. *)
Example comma_ints_blanks : comma_ints " 1, 2 ,,-3," = Ok [1; 2; -3].
Proof. reflexivity. Qed.

Example comma_ints_only_commas : comma_ints ",, ," = Ok [].
Proof. reflexivity. Qed.

Example comma_ints_not_a_number : comma_ints "1,a,2" = Raise ValueError.
Proof. reflexivity. Qed.

Example comma_ints_unit_separator :
  comma_ints (String "1" (String "," (String "031" ""))) = Ok [1]
  /\ comma_ints (String "031" "3") = Raise ValueError.
Proof. repeat split. Qed.

Example split_keeps_empty_pieces : split "," ",a,,b," = [""; "a"; ""; "b"; ""].
Proof. reflexivity. Qed.

Example strip_both_ends : strip "  a b  " = "a b".
Proof. reflexivity. Qed.

(** [move] rewrites the room of the one student and nothing else. *)
Example move_example :
  JsonStudentsRepository.move "students.json" 11 2 sample
  = (Ok (Some (Student.mk 11 "Y" 2)),
     written "students.json"
       [student_X; student_record 11 "Y" 2; student_Z] sample).
Proof. reflexivity. Qed.

(** [update] writes the file before it builds its result: a student whose
    stored room is not a number is renamed on disk, then [int] raises. *)
Example update_writes_then_raises :
  JsonStudentsRepository.update "students.json" 5 (Some "Eve") None
    (World {["students.json" :=
               Doc [<["id" := VInt 5]> (<["name" := VStr "Eva"]> ∅)]]} [])
  = (Raise TypeError,
     World {["students.json" :=
               Doc [<["id" := VInt 5]> (<["name" := VStr "Eve"]> ∅)]]}
           ["students.json"]).
Proof. vm_compute. reflexivity. Qed.

(* ===================================================================== *)
(** ** Running the monad *)
(* ===================================================================== *)

Lemma bind_ok {A B} (m : M A) (f : A -> M B) w a w' :
  m w = (Ok a, w') -> (m ≫= f) w = f a w'.
Proof. intros H. unfold mbind, M_bind. now rewrite H. Qed.

Lemma bind_raise {A B} (m : M A) (f : A -> M B) w e w' :
  m w = (Raise e, w') -> (m ≫= f) w = (Raise e, w').
Proof. intros H. unfold mbind, M_bind. now rewrite H. Qed.

Lemma read_missing self w :
  files w !! self = None -> _read self w = (Ok [], w).
Proof.
  intros H. unfold _read, try_except.
  rewrite (bind_raise _ _ w (FileNotFoundError self) w); [reflexivity|].
  unfold open_r. now rewrite H.
Qed.

Lemma read_malformed self w :
  files w !! self = Some Malformed ->
  _read self w = (Raise (RepositoryError ("Invalid JSON in " +:+ self)), w).
Proof.
  intros H. unfold _read, try_except.
  rewrite (bind_ok _ _ w Malformed w); [reflexivity|].
  unfold open_r. now rewrite H.
Qed.

Lemma read_undecodable self w :
  files w !! self = Some Undecodable ->
  _read self w = (Raise UnicodeDecodeError, w).
Proof.
  intros H. unfold _read, try_except.
  rewrite (bind_ok _ _ w Undecodable w); [reflexivity|].
  unfold open_r. now rewrite H.
Qed.

Lemma read_doc self w items :
  files w !! self = Some (Doc items) -> _read self w = (Ok items, w).
Proof.
  intros H. unfold _read, try_except.
  rewrite (bind_ok _ _ w (Doc items) w); [reflexivity|].
  unfold open_r. now rewrite H.
Qed.

(** Reading never changes the world, and succeeds exactly on a missing
    file or a document. *)
Lemma read_ok_inv self w items w' :
  _read self w = (Ok items, w') ->
  w' = w /\ (files w !! self = None /\ items = []
             \/ files w !! self = Some (Doc items)).
Proof.
  destruct (files w !! self) as [[| |its]|] eqn:E.
  - rewrite (read_undecodable _ _ E). discriminate.
  - rewrite (read_malformed _ _ E). discriminate.
  - rewrite (read_doc _ _ _ E). intros [= <- <-]. auto.
  - rewrite (read_missing _ _ E). intros [= <- <-]. auto.
Qed.

Lemma read_written self items w :
  _read self (written self items w) = (Ok items, written self items w).
Proof. apply read_doc. simpl. apply lookup_insert_eq. Qed.

Lemma write_written self items w :
  _write self items w = (Ok tt, written self items w).
Proof. reflexivity. Qed.

(** Unfolds one bind whose first computation is known. *)
Ltac step H := rewrite (bind_ok _ _ _ _ _ H).

(* ===================================================================== *)
(** ** Reading and loading *)
(* ===================================================================== *)

(** What [_read] does on a missing file and on text that is not JSON: the
    empty list for the first, [RepositoryError] with the message
    "Invalid JSON in <path>" for the second, an error different from the
    missing-file and decoding errors. *)
Lemma read_missing_empty_malformed_raises (self : string) (w : world) :
  (files w !! self = None -> _read self w = (Ok [], w))
  /\ (files w !! self = Some Malformed ->
      _read self w = (Raise (RepositoryError ("Invalid JSON in " +:+ self)), w)
      /\ fst (_read self w) <> Ok []
      /\ RepositoryError ("Invalid JSON in " +:+ self) <> FileNotFoundError self
      /\ RepositoryError ("Invalid JSON in " +:+ self) <> JSONDecodeError).
Proof.
  split.
  - apply read_missing.
  - intros H. rewrite (read_malformed _ _ H). simpl.
    repeat split; discriminate.
Qed.

(** C4. A stored file is not valid JSON in two ways, and [_read] wraps one
    of them only.  On text that is not JSON it raises [RepositoryError]
    naming the path.  On bytes that are not UTF-8 text, [json.load] raises
    [UnicodeDecodeError], which no [except] clause of [_read] matches: it
    leaves [_read] as it is, it is not a [RepositoryError] and carries no
    path.  In both cases nothing is returned, the empty list least of all,
    and the world is as before; a missing file gives the empty list. *)
Theorem read_not_utf8_raises_unicode_error (self : string) (w : world) :
  (files w !! self = None -> _read self w = (Ok [], w))
  /\ (files w !! self = Some Malformed ->
      _read self w = (Raise (RepositoryError ("Invalid JSON in " +:+ self)), w))
  /\ (files w !! self = Some Undecodable ->
      _read self w = (Raise UnicodeDecodeError, w)
      /\ (forall msg, fst (_read self w) <> Raise (RepositoryError msg))
      /\ (forall items, fst (_read self w) <> Ok items)).
Proof.
  split; [apply read_missing|].
  split; [apply read_malformed|].
  intros H. rewrite (read_undecodable _ _ H). simpl.
  repeat split; intros; discriminate.
Qed.

Lemma read_not_utf8_raises_unicode_error_witness :
  _read "rooms.json" (World {["rooms.json" := Undecodable]} [])
  = (Raise UnicodeDecodeError, World {["rooms.json" := Undecodable]} [])
  /\ _read "rooms.json" (World {["rooms.json" := Malformed]} [])
     = (Raise (RepositoryError "Invalid JSON in rooms.json"),
        World {["rooms.json" := Malformed]} [])
  /\ _read "rooms.json" (World ∅ []) = (Ok [], World ∅ []).
Proof.
  split; [|split].
  - apply (read_not_utf8_raises_unicode_error "rooms.json"
             (World {["rooms.json" := Undecodable]} [])).
    reflexivity.
  - apply (read_not_utf8_raises_unicode_error "rooms.json"
             (World {["rooms.json" := Malformed]} [])).
    reflexivity.
  - apply (read_not_utf8_raises_unicode_error "rooms.json" (World ∅ [])).
    reflexivity.
Defined.

Lemma load_missing path w :
  files w !! path = None ->
  JsonDataLoader.load path w = (Raise (FileNotFoundError path), w).
Proof.
  intros H. unfold JsonDataLoader.load.
  apply bind_raise. unfold open_r. now rewrite H.
Qed.

Lemma load_doc path w items :
  files w !! path = Some (Doc items) ->
  JsonDataLoader.load path w = (Ok items, w).
Proof.
  intros H. unfold JsonDataLoader.load.
  rewrite (bind_ok _ _ w (Doc items) w); [reflexivity|].
  unfold open_r. now rewrite H.
Qed.

Lemma load_raises_or_reads path w :
  (exists e, JsonDataLoader.load path w = (Raise e, w))
  \/ (exists items, JsonDataLoader.load path w = (Ok items, w)).
Proof.
  destruct (files w !! path) as [[| |its]|] eqn:E.
  - left. exists UnicodeDecodeError. unfold JsonDataLoader.load.
    rewrite (bind_ok _ _ w Undecodable w); [reflexivity|].
    unfold open_r. now rewrite E.
  - left. exists JSONDecodeError. unfold JsonDataLoader.load.
    rewrite (bind_ok _ _ w Malformed w); [reflexivity|].
    unfold open_r. now rewrite E.
  - right. exists its. apply load_doc, E.
  - left. eexists. apply load_missing, E.
Qed.

(** C10. [JsonDataLoader.load] on a missing file raises
    [FileNotFoundError] where the repositories' [_read] returns the empty
    list; so the combined view raises [FileNotFoundError] when the rooms
    file is missing, raises it when the rooms file loads and the students
    file is missing, and returns nothing whenever either file is missing. *)
Theorem combined_view_missing_file_raises (st : settings) (w : world) :
  (forall path, files w !! path = None ->
     JsonDataLoader.load path w = (Raise (FileNotFoundError path), w)
     /\ _read path w = (Ok [], w))
  /\ (files w !! JSON_ROOMS_PATH st = None ->
      CombinedViewSet.list st w
      = (Raise (FileNotFoundError (JSON_ROOMS_PATH st)), w))
  /\ (forall rooms, files w !! JSON_ROOMS_PATH st = Some (Doc rooms) ->
      files w !! JSON_STUDENTS_PATH st = None ->
      CombinedViewSet.list st w
      = (Raise (FileNotFoundError (JSON_STUDENTS_PATH st)), w))
  /\ (files w !! JSON_ROOMS_PATH st = None
      \/ files w !! JSON_STUDENTS_PATH st = None ->
      exists e, CombinedViewSet.list st w = (Raise e, w)).
Proof.
  assert (Hrooms : files w !! JSON_ROOMS_PATH st = None ->
            CombinedViewSet.list st w
            = (Raise (FileNotFoundError (JSON_ROOMS_PATH st)), w)).
  { intros H. unfold CombinedViewSet.list.
    apply bind_raise. now apply load_missing. }
  assert (Hstud : forall rooms e,
            JsonDataLoader.load (JSON_ROOMS_PATH st) w = (Ok rooms, w) ->
            JsonDataLoader.load (JSON_STUDENTS_PATH st) w = (Raise e, w) ->
            CombinedViewSet.list st w = (Raise e, w)).
  { intros rooms e H1 H2. unfold CombinedViewSet.list.
    step H1. now apply bind_raise. }
  split; [|split; [|split]].
  - intros path H. split; [now apply load_missing | now apply read_missing].
  - exact Hrooms.
  - intros rooms H1 H2. apply (Hstud rooms); [now apply load_doc | now apply load_missing].
  - intros [H | H]; [eexists; apply Hrooms, H|].
    destruct (load_raises_or_reads (JSON_ROOMS_PATH st) w) as [[e He] | [rooms Hr]].
    + exists e. unfold CombinedViewSet.list. now apply bind_raise.
    + eexists. apply (Hstud rooms); [exact Hr | apply load_missing, H].
Qed.

Lemma combined_view_missing_file_raises_witness :
  (JsonDataLoader.load "students.json" only_rooms
   = (Raise (FileNotFoundError "students.json"), only_rooms)
   /\ _read "students.json" only_rooms = (Ok [], only_rooms))
  /\ CombinedViewSet.list (Settings "rooms.json" "students.json") no_files
     = (Raise (FileNotFoundError "rooms.json"), no_files)
  /\ CombinedViewSet.list (Settings "rooms.json" "students.json") only_rooms
     = (Raise (FileNotFoundError "students.json"), only_rooms)
  /\ exists e,
       CombinedViewSet.list (Settings "rooms.json" "students.json") only_rooms
       = (Raise e, only_rooms).
Proof.
  pose proof (combined_view_missing_file_raises
                (Settings "rooms.json" "students.json") only_rooms)
    as (Hload & _ & Hstudents & Heither).
  pose proof (combined_view_missing_file_raises
                (Settings "rooms.json" "students.json") no_files)
    as (_ & Hrooms & _).
  split; [|split; [|split]].
  - apply Hload. reflexivity.
  - apply Hrooms. reflexivity.
  - apply (Hstudents [room_A; room_B]); reflexivity.
  - apply Heither. right. reflexivity.
Defined.

(* ===================================================================== *)
(** ** Update, move and delete *)
(* ===================================================================== *)

Lemma find_first_absent {A} (p : A -> bool) (xs : list A) :
  forallb (fun x => negb (p x)) xs = true -> find_first p xs = None.
Proof.
  induction xs as [|x xs IH]; simpl; [reflexivity|].
  intros [Hx Hxs]%andb_prop. destruct (p x); [discriminate|].
  now rewrite (IH Hxs).
Qed.

Lemma filter_all {A} (p : A -> bool) (xs : list A) :
  forallb p xs = true -> List.filter p xs = xs.
Proof.
  induction xs as [|x xs IH]; simpl; [reflexivity|].
  intros [Hx Hxs]%andb_prop. rewrite Hx. now rewrite (IH Hxs).
Qed.

Lemma filter_shorter {A} (p : A -> bool) (xs : list A) :
  forallb p xs = false -> (length (List.filter p xs) < length xs)%nat.
Proof.
  induction xs as [|x xs IH]; simpl; [discriminate|].
  pose proof (List.filter_length_le p xs) as Hle.
  destruct (p x); simpl; [|lia].
  intros H. specialize (IH H). lia.
Qed.

Lemma lift_world {A} (r : result A) (w : world) : snd (lift r w) = w.
Proof. reflexivity. Qed.

(** C9. [move(id, to_room_id)] and [update(id, room=to_room_id)] return the
    same result and leave the same world, from every world.  On a readable
    collection both return [None] and write nothing when no student has
    the id, and otherwise write the collection with the room of the first
    such student replaced, its other fields kept. *)
Theorem move_is_update_room (self : string) (student_id to_room_id : Z)
    (w : world) :
  JsonStudentsRepository.move self student_id to_room_id w
  = JsonStudentsRepository.update self student_id None (Some to_room_id) w
  /\ forall items,
       _read self w = (Ok items, w) ->
       match find_first (has_id student_id) items with
       | None =>
           JsonStudentsRepository.move self student_id to_room_id w
           = (Ok None, w)
       | Some (k, s) =>
           snd (JsonStudentsRepository.move self student_id to_room_id w)
           = written self (<[k := <["room" := VInt to_room_id]> s]> items) w
       end.
Proof.
  split; [reflexivity|].
  intros items Hread.
  unfold JsonStudentsRepository.move, JsonStudentsRepository.update.
  step Hread. fold (has_id student_id).
  destruct (find_first (has_id student_id) items) as [[k s]|]; [|reflexivity].
  rewrite (bind_ok _ _ _ _ _ (write_written self _ w)).
  apply lift_world.
Qed.

Lemma move_is_update_room_witness :
  snd (JsonStudentsRepository.move "students.json" 11 2 sample)
  = written "students.json"
      [student_X; <["room" := VInt 2]> student_Y; student_Z] sample.
Proof.
  apply (proj2 (move_is_update_room "students.json" 11 2 sample)
           [student_X; student_Y; student_Z] eq_refl).
Defined.

(** C6. When no record of the stored collection has the given id, [update]
    returns [None] and writes nothing: the world, its files and its record
    of writes are what they were.  Rooms and students alike. *)
Theorem update_absent_no_write (self : string) (w : world)
    (items : list record) (i : Z) :
  _read self w = (Ok items, w) ->
  absent i items = true ->
  (forall name, JsonRoomsRepository.update self i name w = (Ok None, w))
  /\ (forall name room,
        JsonStudentsRepository.update self i name room w = (Ok None, w)).
Proof.
  intros Hread Habs.
  pose proof (find_first_absent (has_id i) items Habs) as Hfind.
  unfold has_id in Hfind.
  split; intros.
  - unfold JsonRoomsRepository.update. step Hread. now rewrite Hfind.
  - unfold JsonStudentsRepository.update. step Hread. now rewrite Hfind.
Qed.

Lemma delete_spec (self : string) (w : world) (items : list record) (i : Z) :
  _read self w = (Ok items, w) ->
  JsonRoomsRepository.delete self i w
  = if absent i items then (Ok false, w)
    else (Ok true,
          written self (List.filter (fun r => negb (has_id i r)) items) w).
Proof.
  intros Hread. unfold JsonRoomsRepository.delete. step Hread.
  unfold absent, py_ne.
  change (fun r => negb (py_eq (get r "id") (VInt i)))
    with (fun r => negb (has_id i r)).
  destruct (forallb (fun r => negb (has_id i r)) items) eqn:E.
  - rewrite (filter_all _ _ E). now rewrite Nat.eqb_refl.
  - pose proof (filter_shorter _ _ E) as Hlt.
    apply Nat.lt_neq, Nat.eqb_neq in Hlt. rewrite Hlt.
    reflexivity.
Qed.

Lemma students_delete_is_rooms_delete :
  JsonStudentsRepository.delete = JsonRoomsRepository.delete.
Proof. reflexivity. Qed.


Lemma update_absent_no_write_witness :
  JsonRoomsRepository.update "rooms.json" 7 "Z" sample = (Ok None, sample)
  /\ JsonStudentsRepository.update "students.json" 7 None (Some 2) sample
     = (Ok None, sample).
Proof.
  split.
  - apply (proj1 (update_absent_no_write "rooms.json" sample
                    [room_A; room_B] 7 eq_refl eq_refl)).
  - apply (proj2 (update_absent_no_write "students.json" sample
                    [student_X; student_Y; student_Z] 7 eq_refl eq_refl)).
Defined.


(* ===================================================================== *)
(** ** Id assignment and creation *)
(* ===================================================================== *)

Lemma id_of_lookup (r : record) (z : Z) :
  id_of r = Some z -> r !! "id" = Some (VInt z).
Proof.
  unfold id_of. destruct (r !! "id") as [[| | |]|]; try discriminate.
  now intros [= ->].
Qed.

Lemma getitem_id (r : record) (z : Z) :
  id_of r = Some z -> getitem r "id" = Ok (VInt z).
Proof. intros H. unfold getitem. now rewrite (id_of_lookup _ _ H). Qed.

Lemma int_ids_cons (r : record) (items : list record) :
  int_ids (r :: items) = true ->
  exists z, id_of r = Some z /\ int_ids items = true
            /\ ids_of (r :: items) = z :: ids_of items.
Proof.
  unfold int_ids. simpl. intros [Hr Hitems]%andb_prop.
  apply bool_decide_eq_true in Hr as [z Hz].
  exists z. repeat split; [exact Hz | exact Hitems |].
  unfold ids_of. simpl. now rewrite Hz.
Qed.

Lemma int_ids_app (xs ys : list record) :
  int_ids (xs ++ ys) = int_ids xs && int_ids ys.
Proof. apply forallb_app. Qed.

Lemma ids_of_app (xs ys : list record) :
  ids_of (xs ++ ys) = (ids_of xs ++ ids_of ys)%list.
Proof. apply omap_app. Qed.

Lemma max_loop_ints (items : list record) (m : Z) :
  int_ids items = true ->
  max_loop (fun r => getitem r "id") (VInt m) items
  = Ok (VInt (fold_left Z.max (ids_of items) m)).
Proof.
  revert m. induction items as [|r items IH]; intros m H; [reflexivity|].
  destruct (int_ids_cons _ _ H) as (z & Hz & Hitems & ->).
  simpl. rewrite (getitem_id _ _ Hz). simpl.
  replace (if m <? z then VInt z else VInt m) with (VInt (Z.max m z)).
  - now apply IH.
  - destruct (Z.ltb_spec m z); f_equal; lia.
Qed.

Lemma next_id_spec (items : list record) :
  int_ids items = true ->
  JsonRoomsRepository._next_id items
  = Ok (VInt (1 + max_default (ids_of items) 0)).
Proof.
  intros H. unfold JsonRoomsRepository._next_id, py_max.
  destruct items as [|r items]; [reflexivity|].
  destruct (int_ids_cons _ _ H) as (z & Hz & Hitems & ->).
  rewrite (getitem_id _ _ Hz). simpl.
  rewrite (max_loop_ints _ _ Hitems). simpl.
  unfold py_add. simpl. f_equal. f_equal. lia.
Qed.

Lemma students_next_id_is_rooms_next_id :
  JsonStudentsRepository._next_id = JsonRoomsRepository._next_id.
Proof. reflexivity. Qed.

Lemma rooms_create_spec (self : string) (w : world) (items : list record)
    (name : string) :
  _read self w = (Ok items, w) ->
  int_ids items = true ->
  let n := 1 + max_default (ids_of items) 0 in
  JsonRoomsRepository.create self name w
  = (Ok (Room.mk n name), written self (items ++ [room_record n name]) w).
Proof.
  intros Hread Hint n. unfold JsonRoomsRepository.create. step Hread.
  unfold lift at 1. rewrite (next_id_spec _ Hint). fold n.
  reflexivity.
Qed.

Lemma students_create_spec (self : string) (w : world) (items : list record)
    (name : string) (room : Z) :
  _read self w = (Ok items, w) ->
  int_ids items = true ->
  let n := 1 + max_default (ids_of items) 0 in
  JsonStudentsRepository.create self name room w
  = (Ok (Student.mk n name room),
     written self (items ++ [student_record n name room]) w).
Proof.
  intros Hread Hint n. unfold JsonStudentsRepository.create. step Hread.
  unfold lift at 1.
  rewrite students_next_id_is_rooms_next_id, (next_id_spec _ Hint). fold n.
  reflexivity.
Qed.




Lemma student_record_keys (n : Z) (name : string) (room : Z) :
  dom (student_record n name room) = ({[ "id"; "name"; "room" ]} : gset string).
Proof.
  unfold student_record. rewrite !dom_insert_L, dom_empty_L. set_solver.
Qed.



(* ===================================================================== *)
(** ** Ids along a sequence of creates and deletes *)
(* ===================================================================== *)

Lemma fold_max_spec (zs : list Z) (m : Z) :
  let r := fold_left Z.max zs m in
  m <= r /\ Forall (fun z => z <= r) zs /\ (r = m \/ In r zs).
Proof.
  revert m. induction zs as [|z zs IH]; intros m; simpl.
  - repeat split; [lia | constructor | now left].
  - destruct (IH (Z.max m z)) as (Hge & Hall & Hin).
    set (r := fold_left Z.max zs (Z.max m z)) in *.
    repeat split; [lia | constructor; [lia | exact Hall] |].
    destruct Hin as [Hr | Hr]; [|right; now right].
    destruct (Z.max_spec m z) as [[_ Hm] | [_ Hm]]; rewrite Hm in Hr; auto.
Qed.

Lemma max_default_spec (zs : list Z) (d : Z) :
  zs <> [] ->
  In (max_default zs d) zs /\ Forall (fun z => z <= max_default zs d) zs.
Proof.
  destruct zs as [|z zs]; [congruence|]. intros _. simpl.
  destruct (fold_max_spec zs z) as (Hge & Hall & Hin).
  split; [destruct Hin as [-> | Hin]; [now left | now right]|].
  constructor; assumption.
Qed.

Lemma max_default_unique (zs : list Z) (d m : Z) :
  In m zs -> Forall (fun z => z <= m) zs -> max_default zs d = m.
Proof.
  intros Hin Hall.
  assert (Hne : zs <> []) by (intros ->; destruct Hin).
  destruct (max_default_spec zs d Hne) as [Hin' Hall'].
  rewrite List.Forall_forall in Hall, Hall'.
  specialize (Hall _ Hin'). specialize (Hall' _ Hin). lia.
Qed.

Lemma max_default_snoc (zs : list Z) :
  max_default (zs ++ [1 + max_default zs 0]) 0 = 1 + max_default zs 0.
Proof.
  destruct zs as [|z zs]; [reflexivity|].
  apply max_default_unique.
  - apply in_or_app. right. now left.
  - destruct (max_default_spec (z :: zs) 0) as [_ Hall]; [discriminate|].
    apply List.Forall_app. split.
    + eapply List.Forall_impl; [|exact Hall]. simpl. intros; lia.
    + constructor; [lia | constructor].
Qed.

Lemma max_default_filter (zs : list Z) (i : Z) :
  largest zs i = false ->
  max_default (List.filter (fun z => negb (z =? i)) zs) 0 = max_default zs 0.
Proof.
  intros Hl. destruct zs as [|z0 zs0] eqn:E; [reflexivity|]. rewrite <- E in *.
  destruct (max_default_spec zs 0) as [Hin Hall]; [now subst|].
  apply max_default_unique.
  - apply filter_In. split; [exact Hin|].
    apply negb_true_iff, Z.eqb_neq. intros Heq.
    rewrite Heq in Hin, Hall.
    enough (largest zs i = true) by congruence.
    unfold largest. apply andb_true_intro. split.
    + apply existsb_exists. exists i. split; [exact Hin | apply Z.eqb_refl].
    + apply forallb_forall. rewrite List.Forall_forall in Hall.
      intros j Hj. apply Z.leb_le. now apply Hall.
  - rewrite List.Forall_forall in *. intros j [Hj _]%filter_In. now apply Hall.
Qed.

(** What is left once the largest id [i] is removed lies below [i]; it
    reaches [i - 1] when that id is stored. *)
Lemma max_without_largest (zs : list Z) (i : Z) :
  largest zs i = true ->
  let m := max_default (List.filter (fun z => negb (z =? i)) zs) 0 in
  (0 < i -> m < i) /\ (In (i - 1) zs -> m = i - 1).
Proof.
  intros [_ Hall]%andb_prop m. rewrite forallb_forall in Hall.
  assert (Hlt : forall z,
            In z (List.filter (fun z => negb (z =? i)) zs) -> z < i).
  { intros z [Hz Hne]%filter_In. apply negb_true_iff, Z.eqb_neq in Hne.
    specialize (Hall z Hz). apply Z.leb_le in Hall. lia. }
  split.
  - intros Hpos. subst m.
    destruct (decide (List.filter (fun z => negb (z =? i)) zs = [])) as [E | E].
    + now rewrite E.
    + destruct (max_default_spec _ 0 E) as [Hin _]. now apply Hlt.
  - intros Hin. subst m. apply max_default_unique.
    + apply filter_In. split; [exact Hin|].
      apply negb_true_iff, Z.eqb_neq. lia.
    + apply List.Forall_forall. intros z Hz. specialize (Hlt z Hz). lia.
Qed.

Lemma above_max (zs out : list Z) :
  Forall (fun x => max_default zs 0 < x) out ->
  Forall (fun x => Forall (fun z => z < x) zs) out.
Proof.
  intros H. destruct zs as [|z0 zs0] eqn:E.
  - eapply List.Forall_impl; [|exact H]. intros; constructor.
  - rewrite <- E in *.
    destruct (max_default_spec zs 0) as [_ Hall]; [now subst|].
    eapply List.Forall_impl; [|exact H]. intros x Hx. simpl in Hx.
    eapply List.Forall_impl; [|exact Hall]. intros z Hz. simpl in Hz. lia.
Qed.

Lemma has_id_int (r : record) (z i : Z) :
  id_of r = Some z -> has_id i r = (z =? i).
Proof.
  intros H. unfold has_id, get. now rewrite (id_of_lookup _ _ H).
Qed.

Lemma filter_int_ids (items : list record) (i : Z) :
  int_ids items = true ->
  let kept := List.filter (fun r => negb (has_id i r)) items in
  int_ids kept = true
  /\ ids_of kept = List.filter (fun z => negb (z =? i)) (ids_of items).
Proof.
  induction items as [|r items IH]; intros H; [now split|].
  destruct (int_ids_cons _ _ H) as (z & Hz & Hitems & ->).
  destruct (IH Hitems) as [IH1 IH2]. simpl.
  rewrite (has_id_int _ _ i Hz).
  destruct (z =? i); simpl; [now split|].
  split.
  - unfold int_ids. simpl. apply andb_true_intro. split; [|exact IH1].
    apply bool_decide_eq_true. now exists z.
  - unfold ids_of in *. simpl. rewrite Hz. simpl. now f_equal.
Qed.

Lemma holds_stored_ids self w (items : list record) :
  holds self w items -> stored_ids self w = ids_of items.
Proof. intros [Hread _]. unfold stored_ids. now rewrite Hread. Qed.

Lemma holds_written self w (items' : list record) :
  int_ids items' = true -> holds self (written self items' w) items'.
Proof. intros H. split; [apply read_written | exact H]. Qed.

Section Run.
Context {A : Type} (create : A -> M Z) (delete : Z -> M bool) (self : string).

Hypothesis create_ok : forall a w items,
  holds self w items ->
  let n := 1 + max_default (ids_of items) 0 in
  exists r w',
    create a w = (Ok n, w') /\ holds self w' (items ++ [r]) /\ id_of r = Some n.

Hypothesis delete_ok : forall i w items,
  holds self w items ->
  exists b w',
    delete i w = (Ok b, w')
    /\ holds self w' (List.filter (fun r => negb (has_id i r)) items).

Lemma run_increasing (ops : list (op A)) :
  forall w items,
    holds self w items ->
    spares_largest create delete self ops w = true ->
    exists out w',
      run create delete ops w = (Ok out, w')
      /\ StronglySorted Z.lt out
      /\ Forall (fun x => max_default (ids_of items) 0 < x) out.
Proof.
  induction ops as [|[a | i] ops IH]; intros w items Hh Hs; simpl in *.
  - exists [], w. repeat split; constructor.
  - destruct (create_ok a w items Hh) as (r & w' & Hc & Hh' & Hr).
    rewrite Hc in Hs. simpl in Hs.
    destruct (IH w' _ Hh' Hs) as (out & w'' & Hrun & Hsorted & Habove).
    exists ((1 + max_default (ids_of items) 0) :: out), w''.
    assert (Hmax : max_default (ids_of (items ++ [r])) 0
                   = 1 + max_default (ids_of items) 0).
    { rewrite ids_of_app. unfold ids_of at 2. simpl. rewrite Hr. simpl.
      apply max_default_snoc. }
    rewrite Hmax in Habove.
    repeat split.
    + step Hc. step Hrun. reflexivity.
    + constructor; [exact Hsorted|].
      eapply List.Forall_impl; [|exact Habove]. simpl. intros; lia.
    + constructor; [lia|].
      eapply List.Forall_impl; [|exact Habove]. simpl. intros; lia.
  - apply andb_prop in Hs as [Hl Hs].
    rewrite (holds_stored_ids _ _ _ Hh) in Hl. apply negb_true_iff in Hl.
    destruct (delete_ok i w items Hh) as (b & w' & Hd & Hh').
    rewrite Hd in Hs. simpl in Hs.
    destruct (IH w' _ Hh' Hs) as (out & w'' & Hrun & Hsorted & Habove).
    exists out, w''.
    destruct Hh as [_ Hint].
    destruct (filter_int_ids items i Hint) as [_ Hids].
    rewrite Hids, (max_default_filter _ _ Hl) in Habove.
    repeat split; [|exact Hsorted | exact Habove].
    step Hd. exact Hrun.
Qed.

(** A delete followed by a create: the id returned is one more than the
    largest id the delete left. *)
Lemma run_delete_create (i : Z) (a : A) (w : world) (items : list record) :
  holds self w items ->
  exists w',
    run create delete [Delete i; Create a] w
    = (Ok [1 + max_default
                 (List.filter (fun z => negb (z =? i)) (ids_of items)) 0], w').
Proof.
  intros Hh.
  destruct (delete_ok i w items Hh) as (b & w1 & Hd & Hh1).
  destruct (create_ok a w1 _ Hh1) as (r & w2 & Hc & _).
  destruct Hh as [_ Hint].
  destruct (filter_int_ids items i Hint) as [_ Hids]. rewrite Hids in Hc.
  exists w2. simpl. step Hd. step Hc. reflexivity.
Qed.
End Run.

Lemma int_ids_snoc (items : list record) (r : record) (n : Z) :
  int_ids items = true -> id_of r = Some n -> int_ids (items ++ [r]) = true.
Proof.
  intros Hint Hr. rewrite int_ids_app, Hint. unfold int_ids. simpl.
  rewrite andb_true_r. apply bool_decide_eq_true. now exists n.
Qed.

Lemma rooms_create_ok (self : string) (name : string) (w : world)
    (items : list record) :
  holds self w items ->
  let n := 1 + max_default (ids_of items) 0 in
  exists r w',
    rooms_create self name w = (Ok n, w')
    /\ holds self w' (items ++ [r]) /\ id_of r = Some n.
Proof.
  intros [Hread Hint] n.
  exists (room_record n name), (written self (items ++ [room_record n name]) w).
  assert (Hid : id_of (room_record n name) = Some n) by reflexivity.
  repeat split.
  - unfold rooms_create. step (rooms_create_spec _ _ _ name Hread Hint).
    reflexivity.
  - apply read_written.
  - now apply (int_ids_snoc _ _ n).
Qed.

Lemma students_create_ok (self : string) (a : string * Z) (w : world)
    (items : list record) :
  holds self w items ->
  let n := 1 + max_default (ids_of items) 0 in
  exists r w',
    students_create self a w = (Ok n, w')
    /\ holds self w' (items ++ [r]) /\ id_of r = Some n.
Proof.
  intros [Hread Hint] n. destruct a as [name room].
  exists (student_record n name room),
         (written self (items ++ [student_record n name room]) w).
  assert (Hid : id_of (student_record n name room) = Some n) by reflexivity.
  repeat split.
  - unfold students_create.
    step (students_create_spec _ _ _ name room Hread Hint). reflexivity.
  - apply read_written.
  - now apply (int_ids_snoc _ _ n).
Qed.

Lemma delete_ok (self : string) (i : Z) (w : world) (items : list record) :
  holds self w items ->
  exists b w',
    JsonRoomsRepository.delete self i w = (Ok b, w')
    /\ holds self w' (List.filter (fun r => negb (has_id i r)) items).
Proof.
  intros [Hread Hint]. rewrite (delete_spec _ _ _ i Hread).
  destruct (filter_int_ids items i Hint) as [Hkept _].
  destruct (absent i items) eqn:E.
  - exists false, w. split; [reflexivity|].
    unfold absent in E. rewrite (filter_all _ _ E). now split.
  - eexists true, _. split; [reflexivity|]. now apply holds_written.
Qed.




(* ===================================================================== *)
(** ** Filtered listing of students *)
(* ===================================================================== *)

Lemma filter_r_pure {A} (p : A -> result bool) (q : A -> bool) (xs : list A) :
  Forall (fun x => p x = Ok (q x)) xs ->
  filter_r p xs = Ok (List.filter q xs).
Proof.
  induction 1 as [|x xs Hx _ IH]; [reflexivity|].
  simpl. rewrite Hx, IH. simpl. now destruct (q x).
Qed.

Lemma map_r_pure {A B} (f : A -> result B) (g : A -> B) (xs : list A) :
  Forall (fun x => f x = Ok (g x)) xs ->
  map_r f xs = Ok (map g xs).
Proof.
  induction 1 as [|x xs Hx _ IH]; [reflexivity|].
  simpl. now rewrite Hx, IH.
Qed.

Lemma filter_filter {A} (p q : A -> bool) (xs : list A) :
  List.filter q (List.filter p xs) = List.filter (fun x => p x && q x) xs.
Proof.
  induction xs as [|x xs IH]; [reflexivity|].
  simpl. destruct (p x); simpl; [destruct (q x)|]; now rewrite IH.
Qed.

Lemma filter_none {A} (p : A -> bool) (xs : list A) :
  (forall x, p x = false) -> List.filter p xs = [].
Proof.
  intros H. induction xs as [|x xs IH]; [reflexivity|].
  simpl. now rewrite H.
Qed.

Lemma int_students_forall (items : list record) :
  int_students items = true ->
  Forall (fun s => exists i r, id_of s = Some i /\ room_of s = Some r) items.
Proof.
  intros H. apply List.Forall_forall. intros s Hs.
  unfold int_students in H. rewrite forallb_forall in H.
  apply H, andb_prop in Hs as [[i Hi]%bool_decide_eq_true [r Hr]%bool_decide_eq_true].
  now exists i, r.
Qed.

Lemma py_int_id (s : record) (i : Z) :
  id_of s = Some i -> py_int (get s "id") = Ok i.
Proof. intros H. unfold get. now rewrite (id_of_lookup _ _ H). Qed.

Lemma py_int_room (s : record) (r : Z) :
  room_of s = Some r -> py_int (get s "room") = Ok r.
Proof.
  unfold room_of, get.
  destruct (s !! "room") as [[| | |]|]; try discriminate. now intros [= ->].
Qed.

Lemma in_set_passes (zs : list Z) (z : Z) :
  bool_decide (z ∈ (list_to_set zs : gset Z)) = passes (Some zs) z.
Proof. apply bool_decide_ext. apply elem_of_list_to_set. Qed.

(** One filtering step of [list]: the comprehension keeps what [passes]. *)
Lemma filter_step (key : string) (field : record -> option Z)
    (flt : option (list Z)) (items : list record) :
  Forall (fun s => exists z, field s = Some z /\ py_int (get s key) = Ok z) items ->
  match flt with
  | Some zs =>
      filter_r (fun s => z ← py_int (get s key);
                         Ok (bool_decide (z ∈ (list_to_set zs : gset Z)))) items
  | None => Ok items
  end
  = Ok (List.filter (fun s => passes flt (default 0 (field s))) items).
Proof.
  intros H. destruct flt as [zs|].
  - apply filter_r_pure. eapply List.Forall_impl; [|exact H].
    intros s (z & Hf & Hi). simpl. rewrite Hi, Hf. simpl.
    now rewrite in_set_passes.
  - simpl. f_equal. symmetry. apply filter_all. apply forallb_forall. reflexivity.
Qed.

Lemma students_list_spec (self : string) (w : world) (items : list record)
    (ids_in room_in : option (list Z)) :
  _read self w = (Ok items, w) ->
  int_students items = true ->
  JsonStudentsRepository.list self ids_in room_in w
  = (Ok (map to_student (List.filter (selected ids_in room_in) items)), w).
Proof.
  intros Hread Hint. apply int_students_forall in Hint.
  assert (H1 : Forall (fun s => exists z, id_of s = Some z
                                 /\ py_int (get s "id") = Ok z) items).
  { eapply List.Forall_impl; [|exact Hint]. intros s (i & r & Hi & Hr).
    exists i. split; [exact Hi | now apply py_int_id]. }
  set (items1 := List.filter (fun s => passes ids_in (default 0 (id_of s))) items).
  assert (Hsub : Forall (fun s => exists i r, id_of s = Some i /\ room_of s = Some r)
                   items1).
  { apply List.Forall_forall. intros s [Hs _]%filter_In.
    rewrite List.Forall_forall in Hint. now apply Hint. }
  assert (H2 : Forall (fun s => exists z, room_of s = Some z
                                 /\ py_int (get s "room") = Ok z) items1).
  { eapply List.Forall_impl; [|exact Hsub]. intros s (i & r & Hi & Hr).
    exists r. split; [exact Hr | now apply py_int_room]. }
  set (items2 := List.filter (fun s => passes room_in (default 0 (room_of s))) items1).
  assert (H3 : Forall (fun s => JsonStudentsRepository.normalize s
                                = Ok (to_student s)) items2).
  { apply List.Forall_forall. intros s [Hs _]%filter_In.
    rewrite List.Forall_forall in Hsub. destruct (Hsub _ Hs) as (i & r & Hi & Hr).
    unfold JsonStudentsRepository.normalize, to_student.
    rewrite (py_int_id _ _ Hi), (py_int_room _ _ Hr), Hi, Hr. reflexivity. }
  pose proof (filter_step "id" id_of ids_in items H1) as E1.
  pose proof (filter_step "room" room_of room_in items1 H2) as E2.
  fold items1 in E1. fold items2 in E2.
  unfold JsonStudentsRepository.list. step Hread.
  rewrite (bind_ok _ _ w items1 w).
  2:{ destruct ids_in; simpl in *; unfold lift; now rewrite ?E1; inversion E1. }
  rewrite (bind_ok _ _ w items2 w).
  2:{ destruct room_in; simpl in *; unfold lift; now rewrite ?E2; inversion E2. }
  unfold lift. rewrite (map_r_pure _ _ _ H3).
  unfold items2, items1. now rewrite filter_filter.
Qed.

(** C3, as stated, fails: with empty filters supplied, [list] returns no
    student at all, not the unfiltered list. *)
Lemma empty_filters_select_nothing :
  fst (JsonStudentsRepository.list "students.json" (Some []) (Some []) sample)
  = Ok []
  /\ fst (JsonStudentsRepository.list "students.json" None None sample)
     = Ok [Student.mk 10 "X" 1; Student.mk 11 "Y" 3; Student.mk 12 "Z" 1]
  /\ fst (JsonStudentsRepository.list "students.json" (Some []) (Some []) sample)
     <> fst (JsonStudentsRepository.list "students.json" None None sample).
Proof.
  assert (E1 : fst (JsonStudentsRepository.list "students.json"
                      (Some []) (Some []) sample) = Ok [])
    by (vm_compute; reflexivity).
  assert (E2 : fst (JsonStudentsRepository.list "students.json" None None sample)
               = Ok [Student.mk 10 "X" 1; Student.mk 11 "Y" 3; Student.mk 12 "Z" 1])
    by (vm_compute; reflexivity).
  rewrite E1, E2. repeat split. discriminate.
Qed.

(** C3, amended. On a readable student collection whose records carry
    integer ids and rooms, [list] returns, in file order, exactly the
    students whose id passes the ids filter and whose room passes the room
    filter; a filter that is not supplied lets every student pass, so with
    no filter the whole collection is returned; a supplied filter lets pass
    its members only, so an empty one selects no student. *)
Theorem list_filters_compose (self : string) (w : world)
    (items : list record) (ids_in room_in : option (list Z)) :
  _read self w = (Ok items, w) ->
  int_students items = true ->
  JsonStudentsRepository.list self ids_in room_in w
  = (Ok (map to_student (List.filter (selected ids_in room_in) items)), w)
  /\ JsonStudentsRepository.list self None None w = (Ok (map to_student items), w)
  /\ (ids_in = Some [] \/ room_in = Some [] ->
      JsonStudentsRepository.list self ids_in room_in w = (Ok [], w)).
Proof.
  intros Hread Hint. split; [|split].
  - now apply students_list_spec.
  - rewrite (students_list_spec _ _ _ None None Hread Hint).
    do 2 f_equal. f_equal. apply filter_all. apply forallb_forall. reflexivity.
  - intros Hempty. rewrite (students_list_spec _ _ _ ids_in room_in Hread Hint).
    do 2 f_equal.
    replace (List.filter (selected ids_in room_in) items) with (@nil record);
      [reflexivity|].
    symmetry. apply filter_none. intros s. unfold selected.
    destruct Hempty as [-> | ->]; simpl; [reflexivity | apply andb_false_r].
Qed.

Lemma list_filters_compose_witness :
  JsonStudentsRepository.list "students.json" (Some [11; 12]) (Some [1]) sample
  = (Ok [Student.mk 12 "Z" 1], sample)
  /\ JsonStudentsRepository.list "students.json" None (Some [1; 3; 3]) sample
     = (Ok [Student.mk 10 "X" 1; Student.mk 11 "Y" 3; Student.mk 12 "Z" 1],
        sample)
  /\ JsonStudentsRepository.list "students.json" (Some [10]) (Some []) sample
     = (Ok [], sample).
Proof.
  split; [|split].
  - apply (proj1 (list_filters_compose "students.json" sample
                    [student_X; student_Y; student_Z] (Some [11; 12]) (Some [1])
                    eq_refl eq_refl)).
  - apply (proj1 (list_filters_compose "students.json" sample
                    [student_X; student_Y; student_Z] None (Some [1; 3; 3])
                    eq_refl eq_refl)).
  - apply (proj2 (proj2 (list_filters_compose "students.json" sample
                    [student_X; student_Y; student_Z] (Some [10]) (Some [])
                    eq_refl eq_refl))).
    now right.
Defined.

(* ===================================================================== *)
(** ** The combiner *)
(* ===================================================================== *)

Lemma py_eq_sym (a b : value) : py_eq a b = py_eq b a.
Proof.
  destruct a, b; unfold py_eq; simpl;
    try reflexivity; try apply Z.eqb_sym; apply String.eqb_sym.
Qed.

Lemma py_eq_true (a b : value) :
  py_eq a b = true <->
  (exists x, as_int a = Some x /\ as_int b = Some x)
  \/ (a = VNone /\ b = VNone)
  \/ (exists s, a = VStr s /\ b = VStr s).
Proof.
  split.
  - destruct a, b; unfold py_eq; simpl; try discriminate; intros H.
    + right; left; auto.
    + apply Z.eqb_eq in H. left. rewrite H. eauto.
    + apply Z.eqb_eq in H. left. rewrite H. eauto.
    + apply Z.eqb_eq in H. left. rewrite H. eauto.
    + apply Z.eqb_eq in H. left. rewrite H. eauto.
    + apply String.eqb_eq in H. right; right. subst. eauto.
  - intros [(x & Ha & Hb) | [[-> ->] | (s & -> & ->)]].
    + unfold py_eq. rewrite Ha, Hb. apply Z.eqb_refl.
    + reflexivity.
    + unfold py_eq. simpl. apply String.eqb_refl.
Qed.

Lemma py_eq_trans (a b c : value) :
  py_eq a b = true -> py_eq b c = true -> py_eq a c = true.
Proof.
  rewrite !py_eq_true.
  intros [(x & Ha & Hb) | [[-> ->] | (s & -> & ->)]]
         [(y & Hb' & Hc) | [[Hb' ->] | (t & Hb' & ->)]];
    try discriminate; try (rewrite Hb in Hb'; discriminate); simpl in *.
  - left. exists x. split; [exact Ha | congruence].
  - subst. discriminate.
  - subst. discriminate.
  - right; left; auto.
  - right; right. injection Hb' as ->. eauto.
Qed.

Lemma contains_keys {V} (d : dict V) (k : value) :
  dict_contains d k = existsb (fun k' => py_eq k' k) (map fst d).
Proof.
  unfold dict_contains. induction d as [|[k' v] d IH]; [reflexivity|].
  simpl. now rewrite IH.
Qed.

Lemma dict_set_fresh {V} (d : dict V) (k : value) (v : V) :
  dict_contains d k = false -> dict_set d k v = (d ++ [(k, v)])%list.
Proof.
  unfold dict_contains. induction d as [|[k' v'] d IH]; [reflexivity|].
  simpl. intros [Hk Hd]%orb_false_elim. rewrite Hk. now rewrite (IH Hd).
Qed.

Lemma distinct_mid (xs ys : list value) (k : value) :
  distinct (xs ++ k :: ys) = true ->
  existsb (fun x => py_eq x k) xs = false.
Proof.
  induction xs as [|x xs IH]; [reflexivity|].
  simpl. intros [Hx Hrest]%andb_prop.
  rewrite (IH Hrest), orb_false_r.
  apply negb_true_iff in Hx. rewrite existsb_app in Hx.
  apply orb_false_elim in Hx as [_ Hx]. simpl in Hx.
  apply orb_false_elim in Hx as [Hx _]. now rewrite py_eq_sym.
Qed.

Lemma room_keys_cons (r : record) (rooms : list record) :
  room_keys (r :: rooms) = true ->
  getitem r "id" = Ok (get r "id") /\ getitem r "name" = Ok (get r "name")
  /\ room_keys rooms = true.
Proof.
  unfold room_keys. simpl.
  intros [[[i Hi]%bool_decide_eq_true [n Hn]%bool_decide_eq_true]%andb_prop
            Hrest]%andb_prop.
  unfold getitem, get. rewrite Hi, Hn. auto.
Qed.

(** The first loop of [combine]: with distinct ids every room opens an
    entry of its own, after those already there. *)
Lemma combine_rooms_loop (rooms : list record) :
  forall d : dict CombinedRoom.t,
    room_keys rooms = true ->
    distinct (map fst d ++ room_ids rooms) = true ->
    fold_r (fun (d : dict CombinedRoom.t) room =>
              k ← getitem room "id";
              i ← getitem room "id";
              n ← getitem room "name";
              Ok (dict_set d k (CombinedRoom.mk i n [])))
           d rooms
    = Ok (d ++ map (fun r => (get r "id",
                              CombinedRoom.mk (get r "id") (get r "name") []))
                   rooms)%list.
Proof.
  induction rooms as [|r rooms IH]; intros d Hk Hd.
  - simpl. now rewrite app_nil_r.
  - destruct (room_keys_cons _ _ Hk) as (Hi & Hn & Hk').
    simpl. rewrite Hi, Hn. simpl.
    simpl in Hd. pose proof (distinct_mid _ _ _ Hd) as Hfresh.
    rewrite <- contains_keys in Hfresh.
    rewrite (dict_set_fresh _ _ _ Hfresh).
    rewrite IH.
    + now rewrite <- app_assoc.
    + exact Hk'.
    + rewrite map_app. simpl. now rewrite <- app_assoc.
Qed.

Lemma extend_nil (c : CombinedRoom.t) : extend [] c = c.
Proof. destruct c. unfold extend. simpl. now rewrite app_nil_r. Qed.

Lemma extend_extend (es es' : list StudentEntry.t) (c : CombinedRoom.t) :
  extend es' (extend es c) = extend (es ++ es') c.
Proof. unfold extend. simpl. now rewrite app_assoc. Qed.

Lemma entries_for_cons (k : value) (s : record) (students : list record) :
  entries_for k (s :: students)
  = (entries_for k [s] ++ entries_for k students)%list.
Proof.
  unfold entries_for. simpl. now destruct (py_eq k (get s "room")).
Qed.

(** With distinct keys, the in-place change reaches the one entry whose key
    matches and no other. *)
Lemma dict_alter_distinct {V} (f : V -> V) (d : dict V) (k : value) :
  distinct (map fst d) = true ->
  dict_alter f d k
  = map (fun kv => if py_eq (fst kv) k then (fst kv, f (snd kv)) else kv) d.
Proof.
  induction d as [|[k' v'] d IH]; [reflexivity|].
  simpl. intros [Hk' Hd]%andb_prop.
  destruct (py_eq k' k) eqn:E.
  - f_equal. rewrite <- (map_id d) at 1. apply map_ext_in.
    intros [k'' v''] Hin. simpl.
    destruct (py_eq k'' k) eqn:E'; [|reflexivity].
    apply negb_true_iff in Hk'.
    assert (Hex : existsb (fun x => py_eq x k') (map fst d) = true).
    { apply existsb_exists. exists k''. split.
      - apply in_map_iff. now exists (k'', v'').
      - apply (py_eq_trans _ k); [exact E' | now rewrite py_eq_sym]. }
    congruence.
  - now rewrite (IH Hd).
Qed.

Lemma not_contained_no_entry {V} (d : dict V) (k : value) :
  dict_contains d k = false ->
  Forall (fun kv => py_eq (fst kv) k = false) d.
Proof.
  unfold dict_contains. induction d as [|kv d IH]; [constructor|].
  simpl. intros [Hk Hd]%orb_false_elim. constructor; auto.
Qed.

Lemma student_keys_inv (ks : list value) (s : record) :
  student_keys ks s = true ->
  getitem s "room" = Ok (get s "room")
  /\ (existsb (fun k => py_eq k (get s "room")) ks = true ->
      getitem s "id" = Ok (get s "id") /\ getitem s "name" = Ok (get s "name")).
Proof.
  unfold student_keys, getitem, get.
  destruct (s !! "room") as [rv|]; [|discriminate]. simpl.
  intros H. split; [reflexivity|]. intros Hex. rewrite Hex in H.
  apply andb_prop in H as [[i Hi]%bool_decide_eq_true [n Hn]%bool_decide_eq_true].
  now rewrite Hi, Hn.
Qed.

Lemma place_spec (d : dict CombinedRoom.t) (s : record) :
  distinct (map fst d) = true ->
  student_keys (map fst d) s = true ->
  place d s
  = Ok (map (fun kv => (fst kv, extend (entries_for (fst kv) [s]) (snd kv))) d).
Proof.
  intros Hd Hs. destruct (student_keys_inv _ _ Hs) as [Hroom Hmatch].
  unfold place. rewrite Hroom. simpl.
  destruct (dict_contains d (get s "room")) eqn:E.
  - rewrite contains_keys in E. destruct (Hmatch E) as [Hi Hn].
    rewrite Hi, Hn. simpl. f_equal.
    rewrite (dict_alter_distinct _ _ _ Hd). apply map_ext.
    intros [k c]. unfold entries_for. simpl.
    destruct (py_eq k (get s "room")); simpl; [reflexivity|].
    now rewrite extend_nil.
  - f_equal. rewrite <- (map_id d) at 1. apply map_ext_in.
    intros [k c] Hin. simpl.
    pose proof (not_contained_no_entry _ _ E) as Hall.
    rewrite List.Forall_forall in Hall. specialize (Hall _ Hin). simpl in Hall.
    unfold entries_for. simpl. rewrite Hall. simpl. now rewrite extend_nil.
Qed.

(** The second loop of [combine]: every entry receives, in student order,
    the students whose room matches its key. *)
Lemma combine_students_loop (students : list record) :
  forall d : dict CombinedRoom.t,
    distinct (map fst d) = true ->
    forallb (student_keys (map fst d)) students = true ->
    fold_r place d students
    = Ok (map (fun kv => (fst kv, extend (entries_for (fst kv) students) (snd kv)))
              d).
Proof.
  induction students as [|s students IH]; intros d Hd Hs.
  - simpl. f_equal. rewrite <- (map_id d) at 1. apply map_ext.
    intros [k c]. simpl. unfold entries_for. simpl. now rewrite extend_nil.
  - simpl in Hs. apply andb_prop in Hs as [Hs Hrest].
    simpl. rewrite (place_spec _ _ Hd Hs). simpl.
    set (d1 := map (fun kv => (fst kv, extend (entries_for (fst kv) [s]) (snd kv))) d).
    assert (Hkeys : map fst d1 = map fst d).
    { unfold d1. rewrite map_map. now apply map_ext. }
    rewrite IH; [|now rewrite Hkeys | now rewrite Hkeys].
    f_equal. unfold d1. rewrite map_map. apply map_ext.
    intros [k c]. simpl. now rewrite extend_extend, <- entries_for_cons.
Qed.

Lemma combine_is_two_loops (rooms students : list record) :
  DataCombiner.combine rooms students
  = (room_dict ← fold_r (fun (d : dict CombinedRoom.t) room =>
                           k ← getitem room "id";
                           i ← getitem room "id";
                           n ← getitem room "name";
                           Ok (dict_set d k (CombinedRoom.mk i n [])))
                        [] rooms;
     room_dict ← fold_r place room_dict students;
     Ok (dict_values room_dict)).
Proof. reflexivity. Qed.




(* ===================================================================== *)
(** ** Point lookups *)
(* ===================================================================== *)

Lemma find_r_pure {A} (p : A -> result bool) (q : A -> bool) (xs : list A) :
  Forall (fun x => p x = Ok (q x)) xs ->
  find_r p xs = Ok (List.find q xs).
Proof.
  induction 1 as [|x xs Hx _ IH]; [reflexivity|].
  simpl. rewrite Hx. simpl. now destruct (q x).
Qed.

Lemma int_ids_forall (items : list record) :
  int_ids items = true -> Forall (fun r => exists z, id_of r = Some z) items.
Proof.
  intros H. apply List.Forall_forall. intros r Hr.
  unfold int_ids in H. rewrite forallb_forall in H.
  now apply H, bool_decide_eq_true in Hr.
Qed.

Lemma id_test_pure (items : list record) (i : Z) :
  int_ids items = true ->
  Forall (fun r => (z ← py_int (get r "id"); Ok (z =? i)) = Ok (has_id i r))
         items.
Proof.
  intros H. eapply List.Forall_impl; [|exact (int_ids_forall _ H)].
  intros r [z Hz]. simpl. rewrite (py_int_id _ _ Hz). simpl.
  now rewrite (has_id_int _ _ i Hz).
Qed.

Lemma find_absent {A} (p : A -> bool) (xs : list A) :
  forallb (fun x => negb (p x)) xs = true -> List.find p xs = None.
Proof.
  induction xs as [|x xs IH]; [reflexivity|].
  simpl. intros [Hx Hxs]%andb_prop. apply negb_true_iff in Hx.
  rewrite Hx. now apply IH.
Qed.

Lemma find_present {A} (p : A -> bool) (xs : list A) :
  forallb (fun x => negb (p x)) xs = false ->
  exists x, List.find p xs = Some x /\ In x xs /\ p x = true.
Proof.
  induction xs as [|x xs IH]; [discriminate|].
  simpl. destruct (p x) eqn:E; simpl.
  - intros _. exists x. auto.
  - intros H. destruct (IH H) as (y & Hy & Hin & Hp). exists y. auto.
Qed.

Lemma has_id_true_int (r : record) (i : Z) :
  has_id i r = true -> getitem r "id" ≫= py_int = Ok i.
Proof.
  unfold has_id, get, getitem, py_eq.
  destruct (r !! "id") as [[|b|z|s]|]; simpl; try discriminate.
  - intros ->%Z.eqb_eq. reflexivity.
  - intros ->%Z.eqb_eq. reflexivity.
Qed.

Lemma has_id_true_get (r : record) (i : Z) :
  has_id i r = true -> py_int (get r "id") = Ok i.
Proof.
  unfold has_id, get, py_eq.
  destruct (r !! "id") as [[|b|z|s]|]; simpl; try discriminate.
  - intros ->%Z.eqb_eq. reflexivity.
  - intros ->%Z.eqb_eq. reflexivity.
Qed.

Lemma rooms_get_spec (self : string) (w : world) (items : list record) (i : Z) :
  _read self w = (Ok items, w) ->
  int_ids items = true ->
  JsonRoomsRepository.get self i w
  = (Ok (option_map (fun r => Room.mk i (py_str (get r "name")))
                    (List.find (has_id i) items)), w).
Proof.
  intros Hread Hint. unfold JsonRoomsRepository.get. step Hread.
  unfold lift. rewrite (find_r_pure _ _ _ (id_test_pure _ i Hint)). simpl.
  destruct (List.find (has_id i) items) as [r|] eqn:E; [|reflexivity].
  apply find_some in E as [_ Hr]. simpl.
  unfold JsonRoomsRepository.normalize. now rewrite (has_id_true_get _ _ Hr).
Qed.

Lemma students_get_spec (self : string) (w : world) (items : list record)
    (i : Z) :
  _read self w = (Ok items, w) ->
  int_students items = true ->
  JsonStudentsRepository.get self i w
  = (Ok (option_map to_student (List.find (has_id i) items)), w).
Proof.
  intros Hread Hint. unfold JsonStudentsRepository.get. step Hread.
  assert (Hids : int_ids items = true).
  { unfold int_ids, int_students in *. rewrite forallb_forall in *.
    intros r Hr. now apply Hint, andb_prop in Hr as [Hr _]. }
  unfold lift. rewrite (find_r_pure _ _ _ (id_test_pure _ i Hids)). simpl.
  destruct (List.find (has_id i) items) as [s|] eqn:E; [|reflexivity].
  apply find_some in E as [Hin Hs]. simpl.
  apply int_students_forall in Hint. rewrite List.Forall_forall in Hint.
  destruct (Hint _ Hin) as (z & r & Hz & Hr).
  unfold JsonStudentsRepository.normalize, to_student.
  now rewrite (py_int_id _ _ Hz), (py_int_room _ _ Hr), Hz, Hr.
Qed.

(** X1. On a readable collection with integer ids, [get] returns [None]
    exactly when no record has the id, and otherwise the first record with
    that id, read as a room (a student, when ids and rooms are integers)
    carrying the requested id; it leaves the world as it was. *)
Theorem get_none_iff_absent (self : string) (w : world)
    (items : list record) (i : Z) :
  _read self w = (Ok items, w) ->
  int_ids items = true ->
  (absent i items = true ->
     JsonRoomsRepository.get self i w = (Ok None, w)
     /\ (int_students items = true ->
         JsonStudentsRepository.get self i w = (Ok None, w)))
  /\ (absent i items = false ->
      exists r,
        List.find (has_id i) items = Some r
        /\ In r items
        /\ JsonRoomsRepository.get self i w
           = (Ok (Some (Room.mk i (py_str (get r "name")))), w)
        /\ (int_students items = true ->
            JsonStudentsRepository.get self i w = (Ok (Some (to_student r)), w)
            /\ Student.id (to_student r) = i)).
Proof.
  intros Hread Hint. split; intros Habs.
  - pose proof (find_absent (has_id i) items Habs) as Hfind.
    split; [|intros Hst].
    + now rewrite (rooms_get_spec _ _ _ i Hread Hint), Hfind.
    + now rewrite (students_get_spec _ _ _ i Hread Hst), Hfind.
  - destruct (find_present (has_id i) items Habs) as (r & Hfind & Hin & Hr).
    exists r. repeat split; try assumption.
    + now rewrite (rooms_get_spec _ _ _ i Hread Hint), Hfind.
    + now rewrite (students_get_spec _ _ _ i Hread H), Hfind.
    + apply int_ids_forall in Hint. rewrite List.Forall_forall in Hint.
      destruct (Hint _ Hin) as [z Hz]. simpl. rewrite Hz. simpl.
      rewrite (has_id_int _ _ i Hz) in Hr. now apply Z.eqb_eq.
Qed.

Lemma get_none_iff_absent_witness :
  JsonRoomsRepository.get "rooms.json" 7 sample = (Ok None, sample)
  /\ JsonStudentsRepository.get "students.json" 11 sample
     = (Ok (Some (Student.mk 11 "Y" 3)), sample).
Proof.
  split.
  - apply (proj1 (get_none_iff_absent "rooms.json" sample [room_A; room_B] 7
                    eq_refl eq_refl)).
    reflexivity.
  - destruct (proj2 (get_none_iff_absent "students.json" sample
                       [student_X; student_Y; student_Z] 11 eq_refl eq_refl)
                eq_refl) as (r & Hfind & _ & _ & Hget).
    injection Hfind as <-. apply Hget. reflexivity.
Defined.

Lemma find_snoc {A} (p : A -> bool) (xs : list A) (y : A) :
  forallb (fun x => negb (p x)) xs = true ->
  p y = true ->
  List.find p (xs ++ [y]) = Some y.
Proof.
  intros Hxs Hy. induction xs as [|x xs IH]; simpl.
  - now rewrite Hy.
  - simpl in Hxs. apply andb_prop in Hxs as [Hx Hxs].
    apply negb_true_iff in Hx. rewrite Hx. now apply IH.
Qed.

(** The id [create] picks is carried by no stored record. *)
Lemma next_id_absent (items : list record) :
  int_ids items = true ->
  absent (1 + max_default (ids_of items) 0) items = true.
Proof.
  intros Hint. unfold absent. apply forallb_forall. intros r Hr.
  pose proof (int_ids_forall _ Hint) as Hall.
  rewrite List.Forall_forall in Hall. destruct (Hall _ Hr) as [z Hz].
  rewrite (has_id_int _ _ _ Hz). apply negb_true_iff, Z.eqb_neq.
  assert (Hin : In z (ids_of items)).
  { unfold ids_of. apply list_elem_of_In, list_elem_of_omap. exists r.
    split; [now apply list_elem_of_In | exact Hz]. }
  destruct (max_default_spec (ids_of items) 0) as [_ Hmax].
  { intros E. rewrite E in Hin. destruct Hin. }
  rewrite List.Forall_forall in Hmax. specialize (Hmax _ Hin). lia.
Qed.

Lemma int_students_snoc (items : list record) (n : Z) (name : string)
    (room : Z) :
  int_students items = true ->
  int_students (items ++ [student_record n name room]) = true.
Proof.
  intros H. unfold int_students in *. rewrite forallb_app, H. reflexivity.
Qed.

Lemma int_students_int_ids (items : list record) :
  int_students items = true -> int_ids items = true.
Proof.
  unfold int_ids, int_students. rewrite !forallb_forall.
  intros H r Hr. now apply H, andb_prop in Hr as [Hr _].
Qed.



Lemma rooms_normalize_int (r : record) (z : Z) :
  id_of r = Some z -> JsonRoomsRepository.normalize r = Ok (to_room r).
Proof.
  intros Hz. unfold JsonRoomsRepository.normalize, to_room.
  now rewrite (py_int_id _ _ Hz), Hz.
Qed.

Lemma rooms_list_spec (self : string) (w : world) (items : list record) :
  _read self w = (Ok items, w) ->
  int_ids items = true ->
  JsonRoomsRepository.list self w = (Ok (map to_room items), w).
Proof.
  intros Hread Hint. unfold JsonRoomsRepository.list. step Hread.
  unfold lift. rewrite (map_r_pure _ to_room); [reflexivity|].
  eapply List.Forall_impl; [|exact (int_ids_forall _ Hint)].
  intros r [z Hz]. now apply (rooms_normalize_int _ z).
Qed.



Lemma forallb_filter_sub {A} (p q : A -> bool) (xs : list A) :
  forallb p xs = true -> forallb p (List.filter q xs) = true.
Proof.
  rewrite !forallb_forall. intros H x [Hx _]%filter_In. now apply H.
Qed.

Lemma absent_after_filter (items : list record) (i : Z) :
  absent i (List.filter (fun r => negb (has_id i r)) items) = true.
Proof.
  unfold absent. apply forallb_forall. now intros r [_ Hr]%filter_In.
Qed.



(* ===================================================================== *)
(** ** Updates in place *)
(* ===================================================================== *)

Lemma find_first_spec {A} (p : A -> bool) (xs : list A) (k : nat) (x : A) :
  find_first p xs = Some (k, x) ->
  xs !! k = Some x /\ p x = true /\ List.find p xs = Some x
  /\ forall j y, (j < k)%nat -> xs !! j = Some y -> p y = false.
Proof.
  revert k. induction xs as [|a xs IH]; intros k; simpl; [discriminate|].
  destruct (p a) eqn:E.
  - intros [= <- <-]. repeat split; try assumption. intros j y Hj. lia.
  - destruct (find_first p xs) as [[k' x']|]; simpl; [|discriminate].
    intros [= <- <-]. destruct (IH k' eq_refl) as (Hk & Hp & Hf & Hbefore).
    repeat split; try assumption.
    intros [|j] y Hj; simpl.
    + now intros [= <-].
    + apply Hbefore. lia.
Qed.

Lemma find_first_present {A} (p : A -> bool) (xs : list A) :
  forallb (fun x => negb (p x)) xs = false ->
  exists k x, find_first p xs = Some (k, x).
Proof.
  induction xs as [|a xs IH]; simpl; [discriminate|].
  destruct (p a); simpl; [eauto|].
  intros H. destruct (IH H) as (k & x & ->). simpl. eauto.
Qed.

(** Replacing the first match by another match leaves it the first match;
    replacing a non-match by a non-match changes no search. *)
Lemma find_insert_match {A} (p : A -> bool) (xs : list A) (k : nat) (x x' : A) :
  find_first p xs = Some (k, x) -> p x' = true ->
  List.find p (<[k := x']> xs) = Some x'.
Proof.
  revert k. induction xs as [|a xs IH]; intros k; simpl; [discriminate|].
  destruct (p a) eqn:E.
  - intros [= <- <-] Hx'. simpl. now rewrite Hx'.
  - destruct (find_first p xs) as [[k' y]|] eqn:F; simpl; [|discriminate].
    intros [= <- <-] Hx'. simpl. rewrite E. now apply IH.
Qed.

Lemma find_insert_other {A} (p : A -> bool) (xs : list A) (k : nat) (x x' : A) :
  xs !! k = Some x -> p x = false -> p x' = false ->
  List.find p (<[k := x']> xs) = List.find p xs.
Proof.
  revert k. induction xs as [|a xs IH]; intros [|k]; simpl; try discriminate.
  - intros [= ->] -> ->. reflexivity.
  - intros Hk Hx Hx'. destruct (p a); [reflexivity|]. now apply IH.
Qed.

Lemma id_of_insert (r : record) (key : string) (v : value) :
  key <> "id" -> id_of (<[key := v]> r) = id_of r.
Proof. intros H. unfold id_of. now rewrite lookup_insert_ne. Qed.

Lemma has_id_insert (r : record) (key : string) (v : value) (i : Z) :
  key <> "id" -> has_id i (<[key := v]> r) = has_id i r.
Proof. intros H. unfold has_id, get. now rewrite lookup_insert_ne. Qed.

Lemma ids_of_insert (items : list record) (k : nat) (r r' : record) :
  items !! k = Some r -> id_of r' = id_of r ->
  ids_of (<[k := r']> items) = ids_of items.
Proof.
  revert k. induction items as [|a items IH]; intros [|k]; simpl;
    try discriminate.
  - intros [= ->] H. unfold ids_of. simpl. now rewrite H.
  - intros Hk H. unfold ids_of in *. simpl. now rewrite (IH k Hk H).
Qed.

Lemma int_ids_insert (items : list record) (k : nat) (r r' : record) :
  items !! k = Some r -> id_of r' = id_of r ->
  int_ids items = true -> int_ids (<[k := r']> items) = true.
Proof.
  revert k. induction items as [|a items IH]; intros [|k]; simpl;
    try discriminate.
  - intros [= ->] H. unfold int_ids. simpl. now rewrite H.
  - intros Hk H. unfold int_ids in *. simpl.
    intros [Ha Hrest]%andb_prop. rewrite Ha. simpl. now apply (IH k).
Qed.

Lemma rooms_update_spec (self : string) (w : world) (items : list record)
    (i : Z) (name : string) (k : nat) (r : record) :
  _read self w = (Ok items, w) ->
  find_first (has_id i) items = Some (k, r) ->
  JsonRoomsRepository.update self i name w
  = (Ok (Some (Room.mk i name)),
     written self (<[k := <["name" := VStr name]> r]> items) w).
Proof.
  intros Hread Hfind. unfold JsonRoomsRepository.update. step Hread.
  fold (has_id i). rewrite Hfind.
  rewrite (bind_ok _ _ _ _ _ (write_written self _ w)).
  destruct (find_first_spec _ _ _ _ Hfind) as (_ & Hr & _).
  unfold lift. f_equal.
  rewrite (has_id_true_int (<["name" := VStr name]> r) i).
  - unfold getitem. now rewrite lookup_insert_eq.
  - now rewrite has_id_insert.
Qed.



Lemma students_update_world (self : string) (w : world) (items : list record)
    (i : Z) (name : option string) (room : option Z) (k : nat) (s : record) :
  _read self w = (Ok items, w) ->
  find_first (has_id i) items = Some (k, s) ->
  snd (JsonStudentsRepository.update self i name room w)
  = written self (<[k := updated name room s]> items) w.
Proof.
  intros Hread Hfind. unfold JsonStudentsRepository.update. step Hread.
  fold (has_id i). rewrite Hfind.
  rewrite (bind_ok _ _ _ _ _ (write_written self _ w)).
  apply lift_world.
Qed.

Lemma students_update_full (self : string) (w : world) (items : list record)
    (i : Z) (n : string) (r : Z) (k : nat) (s : record) :
  _read self w = (Ok items, w) ->
  find_first (has_id i) items = Some (k, s) ->
  JsonStudentsRepository.update self i (Some n) (Some r) w
  = (Ok (Some (Student.mk i n r)),
     written self (<[k := updated (Some n) (Some r) s]> items) w).
Proof.
  intros Hread Hfind. unfold JsonStudentsRepository.update. step Hread.
  fold (has_id i). rewrite Hfind.
  rewrite (bind_ok _ _ _ _ _ (write_written self _ w)).
  destruct (find_first_spec _ _ _ _ Hfind) as (_ & Hs & _).
  unfold lift, updated. f_equal.
  rewrite (has_id_true_int (<["room" := VInt r]> (<["name" := VStr n]> s)) i).
  - unfold getitem, get.
    assert (E1 : (<["room" := VInt r]> (<["name" := VStr n]> s) : record)
                 !! "name" = Some (VStr n))
      by (rewrite lookup_insert_ne by discriminate; apply lookup_insert_eq).
    assert (E2 : (<["room" := VInt r]> (<["name" := VStr n]> s) : record)
                 !! "room" = Some (VInt r))
      by apply lookup_insert_eq.
    now rewrite E1, E2.
  - now rewrite !has_id_insert.
Qed.

Lemma updated_lookup (name : option string) (room : option Z) (s : record) :
  updated name room s !! "name"
  = match name with Some n => Some (VStr n) | None => s !! "name" end
  /\ updated name room s !! "room"
     = match room with Some r => Some (VInt r) | None => s !! "room" end
  /\ forall key, key <> "name" -> key <> "room" ->
       updated name room s !! key = s !! key.
Proof.
  unfold updated. destruct name as [n|], room as [r|]; repeat split;
    intros; rewrite ?lookup_insert_eq;
    rewrite ?lookup_insert_ne by (congruence || discriminate);
    rewrite ?lookup_insert_eq; reflexivity.
Qed.



(* ===================================================================== *)
(** ** Ids stay pairwise different *)
(* ===================================================================== *)

Lemma unique_written (self : string) (w : world) (items : list record) :
  int_ids items = true -> NoDup (ids_of items) ->
  unique self (written self items w).
Proof. intros Hint Hnd. exists items. split; [apply read_written | now split]. Qed.

Lemma ids_of_snoc (items : list record) (r : record) (n : Z) :
  id_of r = Some n -> ids_of (items ++ [r]) = (ids_of items ++ [n])%list.
Proof. intros H. rewrite ids_of_app. unfold ids_of at 2. simpl. now rewrite H. Qed.

Lemma next_id_not_stored (items : list record) :
  ~ In (1 + max_default (ids_of items) 0) (ids_of items).
Proof.
  intros Hin.
  destruct (max_default_spec (ids_of items) 0) as [_ Hmax].
  { intros E. rewrite E in Hin. destruct Hin. }
  rewrite List.Forall_forall in Hmax. specialize (Hmax _ Hin). lia.
Qed.

Lemma NoDup_snoc_fresh (zs : list Z) (n : Z) :
  NoDup zs -> ~ In n zs -> NoDup (zs ++ [n]).
Proof.
  intros Hnd Hn. apply NoDup_app. repeat split; [exact Hnd | | apply NoDup_singleton].
  intros x Hx ->%list_elem_of_singleton. now apply Hn, list_elem_of_In.
Qed.

Lemma unique_after_append (self : string) (w : world) (items : list record)
    (r : record) :
  int_ids items = true -> NoDup (ids_of items) ->
  id_of r = Some (1 + max_default (ids_of items) 0) ->
  unique self (written self (items ++ [r]) w).
Proof.
  intros Hint Hnd Hr. apply unique_written.
  - now apply (int_ids_snoc _ _ _ Hint Hr).
  - rewrite (ids_of_snoc _ _ _ Hr).
    apply NoDup_snoc_fresh; [exact Hnd | apply next_id_not_stored].
Qed.

Lemma unique_after_insert (self : string) (w : world) (items : list record)
    (k : nat) (r r' : record) :
  int_ids items = true -> NoDup (ids_of items) ->
  items !! k = Some r -> id_of r' = id_of r ->
  unique self (written self (<[k := r']> items) w).
Proof.
  intros Hint Hnd Hk Hid. apply unique_written.
  - now apply (int_ids_insert _ _ r).
  - now rewrite (ids_of_insert _ _ r).
Qed.

Lemma updated_id (name : option string) (room : option Z) (s : record) :
  id_of (updated name room s) = id_of s.
Proof.
  unfold updated. destruct name, room; now rewrite ?id_of_insert.
Qed.

Lemma rooms_update_absent (self : string) (w : world) (items : list record)
    (i : Z) (name : string) :
  _read self w = (Ok items, w) -> absent i items = true ->
  JsonRoomsRepository.update self i name w = (Ok None, w).
Proof.
  intros Hread Habs. unfold JsonRoomsRepository.update. step Hread.
  fold (has_id i). now rewrite (find_first_absent _ _ Habs).
Qed.

Lemma students_update_absent (self : string) (w : world)
    (items : list record) (i : Z) (name : option string) (room : option Z) :
  _read self w = (Ok items, w) -> absent i items = true ->
  JsonStudentsRepository.update self i name room w = (Ok None, w).
Proof.
  intros Hread Habs. unfold JsonStudentsRepository.update. step Hread.
  fold (has_id i). now rewrite (find_first_absent _ _ Habs).
Qed.



(* ===================================================================== *)
(** ** What the methods leave alone *)
(* ===================================================================== *)

Lemma readonly_ret {A} (a : A) : readonly (mret a : M A).
Proof. intros w. reflexivity. Qed.

Lemma readonly_lift {A} (r : result A) : readonly (lift r).
Proof. intros w. reflexivity. Qed.

Lemma readonly_bind {A B} (m : M A) (f : A -> M B) :
  readonly m -> (forall a, readonly (f a)) -> readonly (m ≫= f).
Proof.
  intros Hm Hf w. unfold mbind, M_bind. specialize (Hm w).
  destruct (m w) as [[a|e] w']; simpl in Hm; subst w'; [apply Hf | reflexivity].
Qed.

Lemma read_cases (self : string) (w : world) :
  (exists items, _read self w = (Ok items, w))
  \/ (exists e, _read self w = (Raise e, w)).
Proof.
  destruct (files w !! self) as [[| |its]|] eqn:E.
  - right. eexists. apply read_undecodable, E.
  - right. eexists. apply read_malformed, E.
  - left. eexists. apply read_doc, E.
  - left. eexists. apply read_missing, E.
Qed.

Lemma readonly_read (self : string) : readonly (_read self).
Proof.
  intros w. destruct (read_cases self w) as [[x H] | [x H]]; now rewrite H.
Qed.

Lemma readonly_load (path : string) : readonly (JsonDataLoader.load path).
Proof.
  intros w.
  destruct (load_raises_or_reads path w) as [[x H] | [x H]]; now rewrite H.
Qed.

Lemma readonly_rooms_list self : readonly (JsonRoomsRepository.list self).
Proof.
  apply readonly_bind; [apply readonly_read | intros; apply readonly_lift].
Qed.

Lemma readonly_rooms_get self i : readonly (JsonRoomsRepository.get self i).
Proof.
  apply readonly_bind; [apply readonly_read | intros; apply readonly_lift].
Qed.

Lemma readonly_students_get self i : readonly (JsonStudentsRepository.get self i).
Proof.
  apply readonly_bind; [apply readonly_read | intros; apply readonly_lift].
Qed.

Lemma readonly_students_list self ids_in room_in :
  readonly (JsonStudentsRepository.list self ids_in room_in).
Proof.
  apply readonly_bind; [apply readonly_read | intros items].
  apply readonly_bind;
    [destruct ids_in; [apply readonly_lift | apply readonly_ret] | intros].
  apply readonly_bind;
    [destruct room_in; [apply readonly_lift | apply readonly_ret] | intros].
  apply readonly_lift.
Qed.

(** X9. Nothing that only reads ever writes: from every world, and whether
    they return or raise, [list] and [get] of both repositories, the loader,
    and the handlers that list, retrieve or combine leave the files and the
    record of writes exactly as they were. *)
Theorem readers_never_write (st : settings) (self : string) :
  readonly (JsonRoomsRepository.list self)
  /\ (forall i, readonly (JsonRoomsRepository.get self i))
  /\ (forall ids_in room_in,
        readonly (JsonStudentsRepository.list self ids_in room_in))
  /\ (forall i, readonly (JsonStudentsRepository.get self i))
  /\ readonly (JsonDataLoader.load self)
  /\ readonly (CombinedViewSet.list st)
  /\ (forall ids_in_param, readonly (RoomViewSet.list st ids_in_param))
  /\ (forall pk, readonly (RoomViewSet.retrieve st pk))
  /\ (forall pk, readonly (RoomViewSet.students st pk))
  /\ (forall ids_in room_in, readonly (StudentViewSet.list st ids_in room_in))
  /\ (forall pk, readonly (StudentViewSet.retrieve st pk)).
Proof.
  repeat split; intros.
  - apply readonly_rooms_list.
  - apply readonly_rooms_get.
  - apply readonly_students_list.
  - apply readonly_students_get.
  - apply readonly_load.
  - apply readonly_bind; [apply readonly_load | intros].
    apply readonly_bind; [apply readonly_load | intros; apply readonly_lift].
  - apply readonly_bind; [apply readonly_rooms_list | intros rooms].
    apply readonly_bind; [|intros; apply readonly_ret].
    destruct ids_in_param as [raw|]; [|apply readonly_ret].
    destruct (truthy raw); [|apply readonly_ret].
    apply readonly_bind; [apply readonly_lift | intros; apply readonly_ret].
  - apply readonly_bind; [apply readonly_lift | intros].
    apply readonly_bind; [apply readonly_rooms_get | intros [room|]];
      apply readonly_ret.
  - apply readonly_bind; [apply readonly_lift | intros].
    apply readonly_bind; [apply readonly_rooms_get | intros [room|]];
      [|apply readonly_ret].
    apply readonly_bind; [apply readonly_students_list | intros].
    apply readonly_ret.
  - apply readonly_bind; [apply readonly_lift | intros].
    apply readonly_bind; [apply readonly_lift | intros].
    apply readonly_bind; [apply readonly_students_list | intros].
    apply readonly_ret.
  - apply readonly_bind; [apply readonly_lift | intros].
    apply readonly_bind; [apply readonly_students_get | intros [student|]];
      apply readonly_ret.
Qed.

Lemma confined_readonly {A} (self : string) (m : M A) :
  readonly m -> confined self m.
Proof. intros H w path _. now rewrite H. Qed.

Lemma confined_bind {A B} (self : string) (m : M A) (f : A -> M B) :
  confined self m -> (forall a, confined self (f a)) -> confined self (m ≫= f).
Proof.
  intros Hm Hf w path Hpath. unfold mbind, M_bind. specialize (Hm w path Hpath).
  destruct (m w) as [[a|e] w']; simpl in Hm; [|exact Hm].
  now rewrite (Hf a w' path Hpath).
Qed.

Lemma confined_write (self : string) (items : list record) :
  confined self (_write self items).
Proof. intros w path Hpath. simpl. apply lookup_insert_ne. congruence. Qed.

Lemma confined_ret {A} (self : string) (a : A) : confined self (mret a : M A).
Proof. apply confined_readonly, readonly_ret. Qed.

Lemma confined_lift {A} (self : string) (r : result A) : confined self (lift r).
Proof. apply confined_readonly, readonly_lift. Qed.

Lemma confined_read (self path : string) : confined self (_read path).
Proof. apply confined_readonly, readonly_read. Qed.

Lemma confined_rooms_create self name :
  confined self (JsonRoomsRepository.create self name).
Proof.
  apply confined_bind; [apply confined_read | intros].
  apply confined_bind; [apply confined_lift | intros].
  apply confined_bind; [apply confined_write | intros; apply confined_lift].
Qed.

Lemma confined_students_create self name room :
  confined self (JsonStudentsRepository.create self name room).
Proof.
  apply confined_bind; [apply confined_read | intros].
  apply confined_bind; [apply confined_lift | intros].
  apply confined_bind; [apply confined_write | intros; apply confined_lift].
Qed.

Lemma confined_rooms_update self i name :
  confined self (JsonRoomsRepository.update self i name).
Proof.
  apply confined_bind; [apply confined_read | intros items].
  destruct (find_first _ items) as [[k r]|]; [|apply confined_ret].
  apply confined_bind; [apply confined_write | intros; apply confined_lift].
Qed.

Lemma confined_students_update self i name room :
  confined self (JsonStudentsRepository.update self i name room).
Proof.
  apply confined_bind; [apply confined_read | intros items].
  destruct (find_first _ items) as [[k r]|]; [|apply confined_ret].
  apply confined_bind; [apply confined_write | intros; apply confined_lift].
Qed.

Lemma confined_delete self i : confined self (JsonRoomsRepository.delete self i).
Proof.
  apply confined_bind; [apply confined_read | intros items].
  cbv beta zeta. destruct (_ =? _)%nat; [apply confined_ret|].
  apply confined_bind; [apply confined_write | intros; apply confined_ret].
Qed.

(** X7. No repository method touches a file other than its own: from every
    world and whatever the arguments, after [create], [update], [delete] or
    [move] every other path holds what it held.  In particular deleting a
    room leaves the student file as it was. *)
Theorem other_files_untouched (self : string) :
  (forall name, confined self (JsonRoomsRepository.create self name))
  /\ (forall i name, confined self (JsonRoomsRepository.update self i name))
  /\ (forall i, confined self (JsonRoomsRepository.delete self i))
  /\ (forall name room,
        confined self (JsonStudentsRepository.create self name room))
  /\ (forall i name room,
        confined self (JsonStudentsRepository.update self i name room))
  /\ (forall i, confined self (JsonStudentsRepository.delete self i))
  /\ (forall i room, confined self (JsonStudentsRepository.move self i room)).
Proof.
  repeat split; intros.
  - apply confined_rooms_create.
  - apply confined_rooms_update.
  - apply confined_delete.
  - apply confined_students_create.
  - apply confined_students_update.
  - rewrite students_delete_is_rooms_delete. apply confined_delete.
  - apply confined_students_update.
Qed.

Lemma next_id_int (items : list record) (v : value) :
  JsonRoomsRepository._next_id items = Ok v -> exists z, v = VInt z.
Proof.
  unfold JsonRoomsRepository._next_id.
  destruct (py_max _ items (VInt 0)) as [m|e]; simpl; [|discriminate].
  unfold py_add. destruct (as_int m); simpl; [|destruct m; discriminate].
  intros [= <-]. eauto.
Qed.

Lemma bind_lift {A B} (r : result A) (f : A -> M B) (w : world) :
  (lift r ≫= f) w = match r with Ok a => f a w | Raise e => (Raise e, w) end.
Proof. now destruct r. Qed.

Lemma bind_read_raises {B} (self : string) (w : world) (e : exn)
    (f : list record -> M B) :
  _read self w = (Raise e, w) -> (_read self ≫= f) w = (Raise e, w).
Proof. apply bind_raise. Qed.

Lemma read_error_raised (self : string) (w : world) (f : file) (e : exn) :
  files w !! self = Some f ->
  read_error self f = Some e ->
  _read self w = (Raise e, w).
Proof.
  intros H. destruct f as [| |items]; simpl; intros [= <-].
  - now apply read_undecodable.
  - now apply read_malformed.
Qed.

(** X11. A file that cannot be decoded is reported by every repository
    method and overwritten by none: [list], [get], [create], [update],
    [delete] and [move] all raise and leave the world as it was.  On text
    that is not JSON the exception is [RepositoryError] naming the path; on
    bytes that are not UTF-8 text it is the [UnicodeDecodeError] that
    [_read] lets through. *)
Theorem malformed_file_stops_every_method (self : string) (w : world)
    (f : file) (e : exn) :
  files w !! self = Some f ->
  read_error self f = Some e ->
  JsonRoomsRepository.list self w = (Raise e, w)
  /\ (forall i, JsonRoomsRepository.get self i w = (Raise e, w))
  /\ (forall name, JsonRoomsRepository.create self name w = (Raise e, w))
  /\ (forall i name, JsonRoomsRepository.update self i name w = (Raise e, w))
  /\ (forall i, JsonRoomsRepository.delete self i w = (Raise e, w))
  /\ (forall ids_in room_in,
        JsonStudentsRepository.list self ids_in room_in w = (Raise e, w))
  /\ (forall i, JsonStudentsRepository.get self i w = (Raise e, w))
  /\ (forall name room,
        JsonStudentsRepository.create self name room w = (Raise e, w))
  /\ (forall i name room,
        JsonStudentsRepository.update self i name room w = (Raise e, w))
  /\ (forall i, JsonStudentsRepository.delete self i w = (Raise e, w))
  /\ (forall i room, JsonStudentsRepository.move self i room w = (Raise e, w)).
Proof.
  intros H He. pose proof (read_error_raised _ _ _ _ H He) as Hread.
  repeat split; intros; now apply bind_read_raises.
Qed.

Lemma malformed_file_stops_every_method_witness :
  JsonRoomsRepository.create "rooms.json" "A"
    (World {["rooms.json" := Malformed]} [])
  = (Raise (RepositoryError "Invalid JSON in rooms.json"),
     World {["rooms.json" := Malformed]} [])
  /\ JsonStudentsRepository.delete "students.json" 10
       (World {["students.json" := Undecodable]} [])
     = (Raise UnicodeDecodeError,
        World {["students.json" := Undecodable]} []).
Proof.
  split.
  - destruct (malformed_file_stops_every_method "rooms.json"
                (World {["rooms.json" := Malformed]} []) Malformed
                (RepositoryError "Invalid JSON in rooms.json"))
      as (_ & _ & Hcreate & _); [reflexivity | reflexivity | apply Hcreate].
  - destruct (malformed_file_stops_every_method "students.json"
                (World {["students.json" := Undecodable]} []) Undecodable
                UnicodeDecodeError)
      as (_ & _ & _ & _ & _ & _ & _ & _ & _ & Hdelete & _);
      [reflexivity | reflexivity | apply Hdelete].
Defined.

(* ===================================================================== *)
(** ** The combiner on any rooms *)
(* ===================================================================== *)

Lemma py_eq_refl (a : value) : py_eq a a = true.
Proof.
  destruct a; unfold py_eq; simpl;
    try reflexivity; try apply Z.eqb_refl; apply String.eqb_refl.
Qed.

Lemma py_eq_left (a b c : value) :
  py_eq a b = true -> py_eq a c = py_eq b c.
Proof.
  intros H. destruct (py_eq b c) eqn:E.
  - now apply (py_eq_trans a b c).
  - destruct (py_eq a c) eqn:E'; [|reflexivity].
    rewrite py_eq_sym in H. now rewrite (py_eq_trans b a c H E') in E.
Qed.

Lemma dict_set_keys {V} (d : dict V) (k : value) (v : V) :
  map fst (dict_set d k v)
  = if dict_contains d k then map fst d else (map fst d ++ [k])%list.
Proof.
  unfold dict_contains. induction d as [|[k' v'] d IH]; [reflexivity|].
  simpl. destruct (py_eq k' k); simpl; [reflexivity|].
  rewrite IH. now destruct (existsb _ d).
Qed.

Lemma distinct_snoc (ks : list value) (k : value) :
  distinct ks = true ->
  existsb (fun k' => py_eq k' k) ks = false ->
  distinct (ks ++ [k]) = true.
Proof.
  induction ks as [|k0 ks IH]; [reflexivity|].
  simpl. intros [Hk0 Hks]%andb_prop [Hk Hrest]%orb_false_elim.
  rewrite (IH Hks Hrest), andb_true_r.
  apply negb_true_iff in Hk0. apply negb_true_iff.
  rewrite existsb_app, Hk0. simpl. rewrite orb_false_r.
  now rewrite py_eq_sym.
Qed.

Lemma dict_set_forall {V} (P : value * V -> Prop) (d : dict V) (k : value)
    (v : V) :
  Forall P d ->
  (forall k', py_eq k' k = true -> P (k', v)) ->
  Forall P (dict_set d k v).
Proof.
  intros Hd Hv. induction Hd as [|[k' v'] d Hkv Hd IH]; simpl.
  - constructor; [apply Hv, py_eq_refl | constructor].
  - destruct (py_eq k' k) eqn:E; constructor; auto.
Qed.

Lemma contains_after_set {V} (d : dict V) (k k' : value) (v : V) :
  dict_contains d k' = true \/ py_eq k k' = true ->
  dict_contains (dict_set d k v) k' = true.
Proof.
  rewrite (contains_keys (dict_set d k v)), dict_set_keys, (contains_keys d k').
  destruct (dict_contains d k) eqn:E.
  - intros [H | H]; [exact H|].
    rewrite contains_keys in E. apply existsb_exists in E as (x & Hx & Hxk).
    apply existsb_exists. exists x. split; [exact Hx|].
    now apply (py_eq_trans x k k').
  - rewrite existsb_app. simpl. rewrite orb_false_r.
    intros [-> | ->]; [reflexivity | apply orb_true_r].
Qed.

Lemma opened_step (seen : list record) (d : dict CombinedRoom.t)
    (room : record) :
  opened seen d ->
  is_Some (room !! "id") -> is_Some (room !! "name") ->
  exists d', open_room d room = Ok d' /\ opened (seen ++ [room]) d'.
Proof.
  intros (Hdist & Hent & Hseen & Hlen) [i Hi] [n Hn].
  unfold open_room, getitem. rewrite Hi, Hn. simpl.
  eexists. split; [reflexivity|].
  assert (Hgi : get room "id" = i) by (unfold get; now rewrite Hi).
  assert (Hgn : get room "name" = n) by (unfold get; now rewrite Hn).
  repeat split.
  - rewrite dict_set_keys. destruct (dict_contains d i) eqn:E; [exact Hdist|].
    apply distinct_snoc; [exact Hdist | now rewrite <- contains_keys].
  - apply dict_set_forall.
    + eapply List.Forall_impl; [|exact Hent].
      intros kc (H1 & H2 & r & Hr & H3 & H4). repeat split; auto.
      exists r. split; [apply in_or_app; now left | auto].
    + intros k' Hk'. simpl. repeat split; auto.
      exists room. split; [apply in_or_app; right; now left | auto].
  - apply List.Forall_app. split.
    + eapply List.Forall_impl; [|exact Hseen].
      intros r Hr. simpl in Hr. apply contains_after_set. now left.
    + constructor; [|constructor]. apply contains_after_set. right.
      rewrite Hgi. apply py_eq_refl.
  - rewrite length_app. simpl.
    assert (length (dict_set d i (CombinedRoom.mk i n [])) <= S (length d))%nat.
    { rewrite <- (length_map fst), dict_set_keys.
      destruct (dict_contains d i); rewrite ?length_app, length_map; simpl; lia. }
    lia.
Qed.

Lemma combine_rooms_loop_any (rooms : list record) :
  forall seen d,
    opened seen d -> room_keys rooms = true ->
    exists d', fold_r open_room d rooms = Ok d' /\ opened (seen ++ rooms) d'.
Proof.
  induction rooms as [|room rooms IH]; intros seen d Hd Hk.
  - exists d. rewrite app_nil_r. now split.
  - unfold room_keys in Hk. simpl in Hk.
    apply andb_prop in Hk as [[Hi Hn]%andb_prop Hk].
    apply bool_decide_eq_true in Hi, Hn.
    destruct (opened_step seen d room Hd Hi Hn) as (d1 & Hstep & Hd1).
    destruct (IH (seen ++ [room])%list d1 Hd1 Hk) as (d' & Hfold & Hd').
    exists d'. simpl. rewrite Hstep. simpl.
    split; [exact Hfold|]. now rewrite <- app_assoc in Hd'.
Qed.

Lemma entries_for_py_eq (k k' : value) (students : list record) :
  py_eq k k' = true -> entries_for k students = entries_for k' students.
Proof.
  intros H. unfold entries_for. f_equal. apply filter_ext.
  intros s. now apply py_eq_left.
Qed.

Lemma distinct_ids_of_keys (d : dict CombinedRoom.t) :
  Forall (fun kc => py_eq (fst kc) (CombinedRoom.id (snd kc)) = true) d ->
  distinct (map (fun kc => CombinedRoom.id (snd kc)) d) = distinct (map fst d).
Proof.
  induction 1 as [|[k c] d Hkc Hd IH]; [reflexivity|].
  simpl in *. rewrite IH. f_equal. f_equal.
  clear IH. induction Hd as [|[k' c'] d Hkc' Hd IH]; [reflexivity|].
  simpl in *. rewrite IH. f_equal.
  rewrite <- (py_eq_left _ _ _ Hkc'), (py_eq_sym k'), (py_eq_sym k').
  symmetry. now apply py_eq_left.
Qed.

Lemma full_student_keys (ks : list value) (s : record) :
  full_student s = true -> student_keys ks s = true.
Proof.
  unfold full_student, student_keys.
  intros [[[rv Hr]%bool_decide_eq_true Hi]%andb_prop Hn]%andb_prop.
  rewrite Hr, Hi, Hn. now destruct (existsb _ ks).
Qed.

(** X12. On any rooms (each with an id and a name) and any students (each
    with a room, an id and a name), [combine] returns; the ids of its
    entries are pairwise different, so there are at most as many entries
    as rooms; every room's id is the id of some entry; every entry carries
    the id and the name of one room of the input; and every entry lists, in
    student order, exactly the students whose room equals its id. *)
Theorem combine_on_any_rooms (rooms students : list record) :
  room_keys rooms = true ->
  forallb full_student students = true ->
  exists out,
    DataCombiner.combine rooms students = Ok out
    /\ distinct (map CombinedRoom.id out) = true
    /\ (length out <= length rooms)%nat
    /\ Forall (fun r => existsb (fun c => py_eq (CombinedRoom.id c) (get r "id"))
                                out = true) rooms
    /\ Forall (fun c =>
                 (exists r, In r rooms
                            /\ CombinedRoom.id c = get r "id"
                            /\ CombinedRoom.name c = get r "name")
                 /\ CombinedRoom.students c
                    = entries_for (CombinedRoom.id c) students) out.
Proof.
  intros Hk Hs.
  assert (H0 : opened [] []) by (repeat split; constructor).
  destruct (combine_rooms_loop_any rooms [] [] H0 Hk)
    as (d & Hfold & Hdist & Hent & Hseen & Hlen).
  simpl in Hseen, Hlen.
  assert (Hst : forallb (student_keys (map fst d)) students = true).
  { apply forallb_forall. intros s Hin. apply full_student_keys.
    rewrite forallb_forall in Hs. now apply Hs. }
  eexists. split.
  { rewrite combine_is_two_loops.
    change (fold_r _ [] rooms) with (fold_r open_room [] rooms).
    rewrite Hfold. simpl. rewrite (combine_students_loop _ _ Hdist Hst).
    reflexivity. }
  unfold dict_values. rewrite !map_map. simpl.
  repeat split.
  - rewrite (distinct_ids_of_keys d); [exact Hdist|].
    eapply List.Forall_impl; [|exact Hent]. now intros kc [H _].
  - now rewrite length_map.
  - eapply List.Forall_impl; [|exact Hseen]. intros r Hr. simpl in Hr.
    unfold dict_contains in Hr.
    apply existsb_exists in Hr as ([k c] & Hin & Hkr).
    apply existsb_exists. eexists. split.
    + apply in_map_iff. exists (k, c). split; [reflexivity | exact Hin].
    + simpl in *.
      rewrite List.Forall_forall in Hent. destruct (Hent _ Hin) as [Hkc _].
      simpl in Hkc. now rewrite <- (py_eq_left _ _ _ Hkc).
  - apply Forall_map. eapply List.Forall_impl; [|exact Hent].
    intros [k c] (Hkc & Hnil & Hr). simpl in *. split; [exact Hr|].
    rewrite Hnil. simpl. now apply entries_for_py_eq.
Qed.

Lemma combine_on_any_rooms_witness :
  exists out,
    DataCombiner.combine [room_record 1 "A"; room_record 1 "B"; room_B]
                         [student_X; student_Y; student_Z] = Ok out
    /\ distinct (map CombinedRoom.id out) = true
    /\ (length out <= 3)%nat
    /\ Forall (fun r => existsb (fun c => py_eq (CombinedRoom.id c) (get r "id"))
                                out = true)
              [room_record 1 "A"; room_record 1 "B"; room_B]
    /\ Forall (fun c =>
                 (exists r, In r [room_record 1 "A"; room_record 1 "B"; room_B]
                            /\ CombinedRoom.id c = get r "id"
                            /\ CombinedRoom.name c = get r "name")
                 /\ CombinedRoom.students c
                    = entries_for (CombinedRoom.id c)
                        [student_X; student_Y; student_Z]) out.
Proof.
  apply (combine_on_any_rooms [room_record 1 "A"; room_record 1 "B"; room_B]
           [student_X; student_Y; student_Z]); reflexivity.
Defined.

(* ===================================================================== *)
(** ** Query parameters: decimal text and back *)
(* ===================================================================== *)

Lemma digit_of_char (d : N) :
  (d < 10)%N ->
  digit_of (pretty_N_char d) = Some (Z.of_N d)
  /\ Py_ISSPACE (pretty_N_char d) = false
  /\ Ascii.eqb (pretty_N_char d) "," = false
  /\ Ascii.eqb (pretty_N_char d) "-" = false
  /\ Ascii.eqb (pretty_N_char d) "+" = false
  /\ plain (String (pretty_N_char d) "") = true.
Proof.
  intros H.
  assert (d = 0 \/ d = 1 \/ d = 2 \/ d = 3 \/ d = 4 \/ d = 5 \/ d = 6
          \/ d = 7 \/ d = 8 \/ d = 9)%N as Hd by lia.
  repeat destruct Hd as [-> | Hd]; try subst d; repeat split.
Qed.

(** Reading the text of [x] placed before [s] is reading [s] with [x]
    appended to what was read so far. *)
Lemma digits_pretty_go (x : N) :
  forall (s : string) (b : bool),
    exists m : Z,
      forall acc : Z,
        digits acc b (pretty_N_go x s)
        = digits (acc * m + Z.of_N x) (b || (0 <? x)%N) s.
Proof.
  induction (N.lt_wf_0 x) as [x _ IH]. intros s b.
  destruct (N.eq_dec x 0%N) as [-> | Hx].
  - exists 1. intros acc. rewrite pretty_N_go_0, orb_false_r.
    f_equal. lia.
  - assert (0 < x)%N as Hpos by lia.
    rewrite (pretty_N_go_step x s Hpos).
    destruct (IH (x `div` 10)%N (N.div_lt x 10 Hpos eq_refl)
                (String (pretty_N_char (x `mod` 10)) s) b) as [m Hm].
    exists (10 * m). intros acc. rewrite Hm. simpl.
    destruct (digit_of_char (x `mod` 10)%N) as (Hd & _);
      [now apply N.mod_lt|].
    rewrite Hd.
    replace (b || (0 <? x)%N) with true
      by (symmetry; apply orb_true_iff; right; now apply N.ltb_lt).
    f_equal. pose proof (N.div_mod x 10). lia.
Qed.

(** The text of a positive number starts with a digit. *)
Lemma pretty_go_head (x : N) :
  forall s, (0 < x)%N ->
    exists d rest, (d < 10)%N /\ pretty_N_go x s = String (pretty_N_char d) rest.
Proof.
  induction (N.lt_wf_0 x) as [x _ IH]. intros s Hpos.
  rewrite (pretty_N_go_step x s Hpos).
  destruct (N.eq_dec (x `div` 10)%N 0%N) as [E | E].
  - rewrite E, pretty_N_go_0. exists (x `mod` 10)%N, s.
    split; [now apply N.mod_lt | reflexivity].
  - apply IH; [now apply N.div_lt | now apply N.neq_0_lt_0].
Qed.

Lemma pretty_go_avoids (c : ascii) (x : N) :
  (forall d, (d < 10)%N -> Ascii.eqb (pretty_N_char d) c = false) ->
  forall s, avoids c s = true -> avoids c (pretty_N_go x s) = true.
Proof.
  intros Hc. induction (N.lt_wf_0 x) as [x _ IH]. intros s Hs.
  destruct (N.eq_dec x 0%N) as [-> | Hx]; [now rewrite pretty_N_go_0|].
  assert (0 < x)%N as Hpos by lia.
  rewrite (pretty_N_go_step x s Hpos).
  apply IH; [now apply N.div_lt|].
  simpl. rewrite Hc by now apply N.mod_lt. exact Hs.
Qed.

Lemma pretty_go_plain (x : N) :
  forall s, plain s = true -> plain (pretty_N_go x s) = true.
Proof.
  induction (N.lt_wf_0 x) as [x _ IH]. intros s Hs.
  destruct (N.eq_dec x 0%N) as [-> | Hx]; [now rewrite pretty_N_go_0|].
  assert (0 < x)%N as Hpos by lia.
  rewrite (pretty_N_go_step x s Hpos).
  apply IH; [now apply N.div_lt|].
  destruct (digit_of_char (x `mod` 10)%N) as (_ & _ & _ & _ & _ & Hp);
    [now apply N.mod_lt|].
  cbn [plain] in *. rewrite andb_true_r in Hp. now rewrite Hp, Hs.
Qed.

Lemma pretty_pos_text (p : positive) :
  pretty (N.pos p) = pretty_N_go (N.pos p) "".
Proof. reflexivity. Qed.

(** The text of a number is ASCII and holds no white space. *)
Lemma pretty_plain (z : Z) : plain (pretty z) = true.
Proof.
  assert (H : forall p, plain (pretty (N.pos p)) = true).
  { intros p. rewrite pretty_pos_text. now apply pretty_go_plain. }
  destruct z as [|p|p]; [reflexivity | apply H |].
  change (pretty (Z.neg p)) with (String "-" (pretty (N.pos p))).
  cbn [plain]. now rewrite H.
Qed.

Lemma plain_ascii (s : string) : plain s = true -> is_ascii s = true.
Proof.
  induction s as [|c s IH]; [reflexivity|]. cbn [plain is_ascii].
  intros [[Hc _]%andb_prop Hs]%andb_prop. now rewrite Hc, IH.
Qed.

(** An ASCII string is parsed as it is. *)
Lemma int_of_str_ascii (s : string) :
  is_ascii s = true -> int_of_str s = int_of_ascii s.
Proof. intros H. unfold int_of_str. now rewrite H. Qed.

(** On plain text every byte is a character, and [strip] drops none. *)
Lemma chars_plain (s : string) :
  plain s = true ->
  Forall (fun x => Py_UNICODE_ISSPACE (fst x) = false) (chars s)
  /\ foldr String.append EmptyString (map snd (chars s)) = s.
Proof.
  induction s as [|c s IH]; [now split|]. cbn [plain].
  intros [[Hc Hsp]%andb_prop Hs]%andb_prop. apply negb_true_iff in Hsp.
  destruct (IH Hs) as [Hall Hjoin].
  cbn [chars]. cbv zeta. rewrite Hc. split.
  - now constructor.
  - cbn [map snd foldr]. now rewrite Hjoin.
Qed.

Lemma lstrip_chars_keeps (l : list (N * string)) :
  Forall (fun x => Py_UNICODE_ISSPACE (fst x) = false) l ->
  lstrip_chars l = l.
Proof.
  intros H. destruct H as [|[p b] l Hp _]; [reflexivity|].
  simpl in *. now rewrite Hp.
Qed.

Lemma strip_plain (s : string) : plain s = true -> strip s = s.
Proof.
  intros H. destruct (chars_plain s H) as [Hall Hjoin].
  unfold strip, rstrip_chars.
  rewrite (lstrip_chars_keeps _ Hall).
  rewrite (lstrip_chars_keeps (rev (chars s))) by now apply List.Forall_rev.
  now rewrite rev_involutive.
Qed.

Lemma int_of_str_pos (p : positive) :
  int_of_str (pretty (N.pos p)) = Some (Z.pos p)
  /\ digits 0 false (pretty (N.pos p)) = Some (Z.pos p).
Proof.
  rewrite pretty_pos_text.
  assert (Hd : digits 0 false (pretty_N_go (N.pos p) "") = Some (Z.pos p)).
  { destruct (digits_pretty_go (N.pos p) "" false) as [m Hm].
    rewrite Hm. reflexivity. }
  split; [|exact Hd].
  destruct (pretty_go_head (N.pos p) "" eq_refl) as (d & rest & Hlt & E).
  rewrite E in *.
  destruct (digit_of_char d Hlt) as (_ & Hsp & _ & Hminus & Hplus & Hp).
  rewrite int_of_str_ascii
    by (rewrite <- E; apply plain_ascii, pretty_go_plain; reflexivity).
  unfold int_of_ascii. simpl skip_space. rewrite Hsp.
  assert (d = 0 \/ d = 1 \/ d = 2 \/ d = 3 \/ d = 4 \/ d = 5 \/ d = 6
          \/ d = 7 \/ d = 8 \/ d = 9)%N as Hcases by lia.
  repeat destruct Hcases as [-> | Hcases]; try subst d; exact Hd.
Qed.

(** [int(str(z))] is [z]. *)
Lemma int_of_str_pretty (z : Z) : int_of_str (pretty z) = Some z.
Proof.
  destruct z as [|p|p].
  - reflexivity.
  - apply int_of_str_pos.
  - rewrite int_of_str_ascii by apply plain_ascii, pretty_plain.
    change (pretty (Z.neg p)) with (String "-" (pretty (N.pos p))).
    unfold int_of_ascii. simpl.
    now rewrite (proj2 (int_of_str_pos p)).
Qed.

Lemma pretty_avoids_comma (z : Z) : avoids "," (pretty z) = true.
Proof.
  assert (H : forall p, avoids "," (pretty (N.pos p)) = true).
  { intros p. rewrite pretty_pos_text. apply pretty_go_avoids; [|reflexivity].
    intros d Hd. now destruct (digit_of_char d Hd) as (_ & _ & Hc & _). }
  destruct z as [|p|p]; [reflexivity | apply H |].
  change (pretty (Z.neg p)) with ("-" +:+ pretty (N.pos p)).
  simpl. apply H.
Qed.

(** The text of a number is not empty, and [strip] leaves it as it is. *)
Lemma pretty_truthy (z : Z) :
  truthy (strip (pretty z)) = true /\ truthy (pretty z) = true.
Proof.
  rewrite (strip_plain _ (pretty_plain z)).
  assert (H : truthy (pretty z) = true); [|now split].
  destruct z as [|p|p]; [reflexivity | | reflexivity].
  change (pretty (Z.pos p)) with (pretty (N.pos p)). rewrite pretty_pos_text.
  destruct (pretty_go_head (N.pos p) "" eq_refl) as (d & rest & _ & ->).
  reflexivity.
Qed.

Lemma split_nonempty (sep : ascii) (s : string) : split sep s <> [].
Proof.
  destruct s as [|c s]; simpl; [discriminate|].
  destruct (Ascii.eqb c sep); [discriminate|].
  destruct (split sep s); discriminate.
Qed.

Lemma split_app (sep : ascii) (s s' : string) :
  split sep (s +:+ String sep s') = (split sep s ++ split sep s')%list.
Proof.
  induction s as [|c s IH].
  - change ("" +:+ String sep s') with (String sep s').
    simpl. now rewrite Ascii.eqb_refl.
  - change (String c s +:+ String sep s') with (String c (s +:+ String sep s')).
    simpl. destruct (Ascii.eqb c sep); [now rewrite IH|].
    rewrite IH. pose proof (split_nonempty sep s).
    now destruct (split sep s).
Qed.

Lemma split_avoids (sep : ascii) (s : string) :
  avoids sep s = true -> split sep s = [s].
Proof.
  induction s as [|c s IH]; [reflexivity|].
  simpl. intros [Hc Hs]%andb_prop. apply negb_true_iff in Hc.
  now rewrite Hc, (IH Hs).
Qed.

Lemma map_r_app {A B} (f : A -> result B) (xs ys : list A) :
  map_r f (xs ++ ys)
  = (a ← map_r f xs; b ← map_r f ys; Ok (a ++ b)%list).
Proof.
  induction xs as [|x xs IH]; simpl.
  - now destruct (map_r f ys).
  - destruct (f x); simpl; [|reflexivity]. rewrite IH.
    destruct (map_r f xs); simpl; [|reflexivity].
    now destruct (map_r f ys).
Qed.

Lemma comma_ints_comma (s s' : string) :
  comma_ints (s +:+ String "," s')
  = (a ← comma_ints s; b ← comma_ints s'; Ok (a ++ b)%list).
Proof.
  unfold comma_ints. now rewrite split_app, List.filter_app, map_r_app.
Qed.

Lemma comma_ints_one (z : Z) : comma_ints (pretty z) = Ok [z].
Proof.
  unfold comma_ints. rewrite (split_avoids _ _ (pretty_avoids_comma z)).
  simpl. rewrite (proj1 (pretty_truthy z)). simpl.
  now rewrite int_of_str_pretty.
Qed.

Lemma comma_join_cons (z z' : Z) (zs : list Z) :
  comma_join (z :: z' :: zs) = pretty z +:+ String "," (comma_join (z' :: zs)).
Proof. reflexivity. Qed.

Lemma comma_ints_join (zs : list Z) : comma_ints (comma_join zs) = Ok zs.
Proof.
  induction zs as [|z [|z' zs] IH]; [reflexivity | apply comma_ints_one |].
  rewrite comma_join_cons, comma_ints_comma, comma_ints_one, IH.
  reflexivity.
Qed.

(** X13. The comprehension the list handlers apply to a query parameter
    reads back what a client wrote: the ids joined with commas give those
    ids, in order ([int(str(z))] is [z]).  A comma separates two readings
    that are made one after the other, so empty and blank pieces (a
    leading, trailing or doubled comma) contribute nothing. *)
Theorem comma_ints_reads_joined_ids (zs : list Z) :
  comma_ints (comma_join zs) = Ok zs
  /\ (forall s s',
        comma_ints (s +:+ String "," s')
        = (a ← comma_ints s; b ← comma_ints s'; Ok (a ++ b)%list))
  /\ (forall z, int_of_str (pretty z) = Some z).
Proof.
  split; [apply comma_ints_join|].
  split; [apply comma_ints_comma | apply int_of_str_pretty].
Qed.

(* ===================================================================== *)
(** ** The handlers that list *)
(* ===================================================================== *)

Lemma comma_join_truthy (z : Z) (zs : list Z) :
  truthy (comma_join (z :: zs)) = true.
Proof.
  assert (H : exists c rest, pretty z = String c rest).
  { pose proof (proj2 (pretty_truthy z)) as H.
    destruct (pretty z) as [|c rest]; [discriminate | eauto]. }
  destruct H as (c & rest & E).
  destruct zs as [|z' zs].
  - change (comma_join [z]) with (pretty z). now rewrite E.
  - rewrite comma_join_cons, E. reflexivity.
Qed.

(** What the handlers make of a query parameter. *)
Lemma query_read (zs : option (list Z)) :
  match query zs with
  | Some raw => if truthy raw then Some <$> comma_ints raw else Ok None
  | None => Ok None
  end = Ok (filter_of zs).
Proof.
  destruct zs as [[|z zs]|]; try reflexivity.
  simpl. rewrite comma_join_truthy.
  now rewrite comma_ints_join.
Qed.

Lemma rooms_list_handler (st : settings) (w : world) (rooms : list record)
    (ids : option (list Z)) :
  _read (rooms_repo st) w = (Ok rooms, w) ->
  int_ids rooms = true ->
  RoomViewSet.list st (query ids) w
  = (Ok (Response.mk
           (DRooms (List.filter (fun r => passes (filter_of ids) (Room.id r))
                                (map to_room rooms)))
           200), w).
Proof.
  intros Hread Hint. unfold RoomViewSet.list.
  step (rooms_list_spec _ _ _ Hread Hint).
  destruct ids as [[|z zs]|].
  - simpl. rewrite filter_all; [reflexivity | now apply forallb_forall].
  - cbn [query fmap option_fmap option_map filter_of].
    rewrite comma_join_truthy.
    rewrite (bind_ok _ _ w
               (List.filter (fun r => passes (Some (z :: zs)) (Room.id r))
                            (map to_room rooms)) w); [reflexivity|].
    rewrite bind_lift, comma_ints_join. cbv beta iota zeta.
    unfold mret, M_ret. do 2 f_equal.
    apply filter_ext. intros r. apply in_set_passes.
  - simpl. rewrite filter_all; [reflexivity | now apply forallb_forall].
Qed.

Lemma students_list_handler (st : settings) (w : world)
    (students : list record) (ids room_ids : option (list Z)) :
  _read (students_repo st) w = (Ok students, w) ->
  int_students students = true ->
  StudentViewSet.list st (query ids) (query room_ids) w
  = (Ok (Response.mk
           (DStudents
              (map to_student
                 (List.filter (selected (filter_of ids) (filter_of room_ids))
                              students)))
           200), w).
Proof.
  intros Hread Hint. unfold StudentViewSet.list.
  rewrite bind_lift, query_read, bind_lift, query_read.
  now step (students_list_spec _ _ _ (filter_of ids) (filter_of room_ids)
              Hread Hint).
Qed.

(** X14. Listing through the handlers.  With the ids of a query parameter
    written as decimal text joined by commas, the room handler returns 200
    with the rooms whose id is among them, and the student handler 200 with
    the students whose id is among [ids__in] and whose room is among
    [room__in], both in file order.  A parameter left out, and one given
    with no id at all (the empty text), filter nothing. *)
Theorem list_handlers_filter (st : settings) (w : world)
    (rooms students : list record) (ids room_ids : option (list Z)) :
  sound st w rooms students ->
  RoomViewSet.list st (query ids) w
  = (Ok (Response.mk
           (DRooms (List.filter (fun r => passes (filter_of ids) (Room.id r))
                                (map to_room rooms)))
           200), w)
  /\ StudentViewSet.list st (query ids) (query room_ids) w
     = (Ok (Response.mk
              (DStudents
                 (map to_student
                    (List.filter (selected (filter_of ids) (filter_of room_ids))
                                 students)))
              200), w).
Proof.
  intros (_ & Hrooms & Hstudents & Hint & Hst).
  split; [now apply rooms_list_handler | now apply students_list_handler].
Qed.

Lemma sound_sample :
  sound (Settings "rooms.json" "students.json") sample
        [room_A; room_B] [student_X; student_Y; student_Z].
Proof. repeat split. discriminate. Qed.

Lemma list_handlers_filter_witness :
  StudentViewSet.list (Settings "rooms.json" "students.json")
    (Some "11,12") (Some "1") sample
  = (Ok (Response.mk (DStudents [Student.mk 12 "Z" 1]) 200), sample)
  /\ RoomViewSet.list (Settings "rooms.json" "students.json") (Some "") sample
     = (Ok (Response.mk (DRooms [Room.mk 1 "A"; Room.mk 2 "B"]) 200), sample).
Proof.
  split.
  - apply (proj2 (list_handlers_filter (Settings "rooms.json" "students.json")
                    sample _ _ (Some [11; 12]) (Some [1]) sound_sample)).
  - apply (proj1 (list_handlers_filter (Settings "rooms.json" "students.json")
                    sample _ _ (Some []) None sound_sample)).
Defined.

(* ===================================================================== *)
(** ** The handlers of one record *)
(* ===================================================================== *)

Lemma pk_id_text (i : Z) : pk_id (Some (pretty i)) = Ok i.
Proof. simpl. now rewrite int_of_str_pretty. Qed.

Lemma find_absent_iff {A} (p : A -> bool) (xs : list A) :
  List.find p xs = None <-> forallb (fun x => negb (p x)) xs = true.
Proof.
  split; [|apply find_absent].
  intros H. apply forallb_forall. intros x Hx.
  apply negb_true_iff. now apply (find_none _ _ H).
Qed.

Lemma read_written_other (self path : string) (items : list record)
    (w : world) (r : result (list record)) :
  path <> self ->
  _read path w = (r, w) ->
  _read path (written self items w) = (r, written self items w).
Proof.
  intros Hne H.
  assert (E : files (written self items w) !! path = files w !! path).
  { simpl. apply lookup_insert_ne. congruence. }
  destruct (files w !! path) as [[| |its]|] eqn:F.
  - rewrite (read_undecodable _ _ F) in H. injection H as <-.
    apply read_undecodable. now rewrite E.
  - rewrite (read_malformed _ _ F) in H. injection H as <-.
    apply read_malformed. now rewrite E.
  - rewrite (read_doc _ _ _ F) in H. injection H as <-.
    apply read_doc. now rewrite E.
  - rewrite (read_missing _ _ F) in H. injection H as <-.
    apply read_missing. now rewrite E.
Qed.

Lemma sound_students_written (st : settings) (w : world)
    (rooms students students' : list record) :
  sound st w rooms students ->
  int_students students' = true ->
  sound st (written (students_repo st) students' w) rooms students'.
Proof.
  intros (Hne & Hrooms & Hstudents & Hint & Hst) Hst'.
  repeat split; auto.
  - now apply read_written_other.
  - apply read_written.
Qed.

Lemma sound_rooms_written (st : settings) (w : world)
    (rooms rooms' students : list record) :
  sound st w rooms students ->
  int_ids rooms' = true ->
  sound st (written (rooms_repo st) rooms' w) rooms' students.
Proof.
  intros (Hne & Hrooms & Hstudents & Hint & Hst) Hint'.
  repeat split; auto.
  - apply read_written.
  - apply read_written_other; [congruence | exact Hstudents].
Qed.

Lemma room_retrieve_spec (st : settings) (w : world) (rooms : list record)
    (pk : option string) (i : Z) :
  _read (rooms_repo st) w = (Ok rooms, w) ->
  int_ids rooms = true ->
  pk_id pk = Ok i ->
  RoomViewSet.retrieve st pk w
  = (Ok match List.find (has_id i) rooms with
        | Some r => Response.mk (DRoom (Room.mk i (py_str (get r "name")))) 200
        | None => not_found "Room not found"
        end, w).
Proof.
  intros Hread Hint Hpk. unfold RoomViewSet.retrieve.
  rewrite bind_lift, Hpk. step (rooms_get_spec _ _ _ i Hread Hint).
  now destruct (List.find (has_id i) rooms).
Qed.

Lemma student_retrieve_spec (st : settings) (w : world)
    (students : list record) (pk : option string) (i : Z) :
  _read (students_repo st) w = (Ok students, w) ->
  int_students students = true ->
  pk_id pk = Ok i ->
  StudentViewSet.retrieve st pk w
  = (Ok match List.find (has_id i) students with
        | Some s => Response.mk (DStudent (Some (to_student s))) 200
        | None => not_found "Student not found"
        end, w).
Proof.
  intros Hread Hint Hpk. unfold StudentViewSet.retrieve.
  rewrite bind_lift, Hpk. step (students_get_spec _ _ _ i Hread Hint).
  now destruct (List.find (has_id i) students).
Qed.

(** X15. Retrieving through the handlers, on readable files with integer
    ids (and integer rooms for students): the answer is 404 with code
    [not_found] exactly when no record has the id of the path, and
    otherwise 200 with the first record of that id, the one [List.find]
    stops at; nothing is written.  A path without [pk] stands for id 0,
    and the decimal text of an id for that id. *)
Theorem retrieve_handlers (st : settings) (w : world)
    (rooms students : list record) (pk : option string) (i : Z) :
  sound st w rooms students ->
  pk_id pk = Ok i ->
  (absent i rooms = true ->
     RoomViewSet.retrieve st pk w = (Ok (not_found "Room not found"), w))
  /\ (absent i rooms = false ->
      exists r, List.find (has_id i) rooms = Some r
        /\ RoomViewSet.retrieve st pk w
           = (Ok (Response.mk (DRoom (Room.mk i (py_str (get r "name")))) 200),
              w))
  /\ (absent i students = true ->
      StudentViewSet.retrieve st pk w = (Ok (not_found "Student not found"), w))
  /\ (absent i students = false ->
      exists s, List.find (has_id i) students = Some s
        /\ StudentViewSet.retrieve st pk w
           = (Ok (Response.mk (DStudent (Some (to_student s))) 200), w))
  /\ pk_id None = Ok 0
  /\ (forall z, pk_id (Some (pretty z)) = Ok z).
Proof.
  intros (_ & Hrooms & Hstudents & Hint & Hst) Hpk.
  rewrite (room_retrieve_spec _ _ _ _ _ Hrooms Hint Hpk).
  rewrite (student_retrieve_spec _ _ _ _ _ Hstudents Hst Hpk).
  repeat split; try apply pk_id_text; intros Habs.
  - now rewrite (find_absent _ _ Habs).
  - destruct (find_present _ _ Habs) as (r & Hfind & _).
    exists r. split; [exact Hfind | now rewrite Hfind].
  - now rewrite (find_absent _ _ Habs).
  - destruct (find_present _ _ Habs) as (s & Hfind & _).
    exists s. split; [exact Hfind | now rewrite Hfind].
Qed.

Lemma retrieve_handlers_witness :
  RoomViewSet.retrieve (Settings "rooms.json" "students.json") (Some "7") sample
  = (Ok (not_found "Room not found"), sample)
  /\ exists s, List.find (has_id 11) [student_X; student_Y; student_Z] = Some s
       /\ StudentViewSet.retrieve (Settings "rooms.json" "students.json")
            (Some "11") sample
          = (Ok (Response.mk (DStudent (Some (to_student s))) 200), sample).
Proof.
  split.
  - apply (proj1 (retrieve_handlers (Settings "rooms.json" "students.json")
                    sample _ _ (Some "7") 7 sound_sample eq_refl)).
    reflexivity.
  - apply (proj1 (proj2 (proj2 (proj2
             (retrieve_handlers (Settings "rooms.json" "students.json")
                sample _ _ (Some "11") 11 sound_sample eq_refl))))).
    reflexivity.
Defined.

Lemma room_destroy_spec (st : settings) (w : world) (rooms : list record)
    (pk : option string) (i : Z) :
  _read (rooms_repo st) w = (Ok rooms, w) ->
  pk_id pk = Ok i ->
  RoomViewSet.destroy st pk w
  = if absent i rooms then (Ok (not_found "Room not found"), w)
    else (Ok (Response.mk DNone 204),
          written (rooms_repo st)
            (List.filter (fun r => negb (has_id i r)) rooms) w).
Proof.
  intros Hread Hpk. unfold RoomViewSet.destroy.
  rewrite bind_lift, Hpk.
  unfold mbind, M_bind. rewrite (delete_spec _ _ _ i Hread).
  now destruct (absent i rooms).
Qed.

Lemma student_destroy_spec (st : settings) (w : world)
    (students : list record) (pk : option string) (i : Z) :
  _read (students_repo st) w = (Ok students, w) ->
  pk_id pk = Ok i ->
  StudentViewSet.destroy st pk w
  = if absent i students then (Ok (not_found "Student not found"), w)
    else (Ok (Response.mk DNone 204),
          written (students_repo st)
            (List.filter (fun r => negb (has_id i r)) students) w).
Proof.
  intros Hread Hpk. unfold StudentViewSet.destroy.
  rewrite bind_lift, Hpk.
  unfold mbind, M_bind.
  rewrite students_delete_is_rooms_delete, (delete_spec _ _ _ i Hread).
  now destruct (absent i students).
Qed.



Lemma passes_one (i z : Z) : passes (Some [i]) z = (z =? i).
Proof.
  unfold passes. destruct (Z.eqb_spec z i) as [-> | Hne].
  - apply bool_decide_eq_true. apply list_elem_of_singleton. reflexivity.
  - apply bool_decide_eq_false. intros H%list_elem_of_singleton. contradiction.
Qed.

(** X17. The students of a room, through the handler.  The room is looked
    up first: on a readable room file with integer ids, when no room has
    the id the answer is 404 and the student file is not opened, so it may
    be missing or undecodable.  When a room has the id (student file
    readable, integer ids and rooms) the answer is 200 with exactly the
    students whose room is that id, in file order. *)
Theorem room_students_handler (st : settings) (w : world)
    (rooms : list record) (pk : option string) (i : Z) :
  _read (rooms_repo st) w = (Ok rooms, w) ->
  int_ids rooms = true ->
  pk_id pk = Ok i ->
  (absent i rooms = true ->
     RoomViewSet.students st pk w = (Ok (not_found "Room not found"), w))
  /\ (forall students,
        sound st w rooms students ->
        absent i rooms = false ->
        RoomViewSet.students st pk w
        = (Ok (Response.mk
                 (DStudents
                    (map to_student
                       (List.filter (fun s => default 0 (room_of s) =? i)
                                    students)))
                 200), w)).
Proof.
  intros Hrooms Hint Hpk.
  unfold RoomViewSet.students. rewrite bind_lift, Hpk.
  step (rooms_get_spec _ _ _ i Hrooms Hint).
  split.
  - intros Habs. now rewrite (find_absent _ _ Habs).
  - intros students (_ & _ & Hstudents & _ & Hst) Habs.
    destruct (find_present _ _ Habs) as (r & -> & _). cbn [option_map].
    step (students_list_spec _ _ _ None (Some [i]) Hstudents Hst).
    unfold mret, M_ret. do 4 f_equal. f_equal.
    apply filter_ext. intros s. unfold selected. simpl passes at 1.
    apply passes_one.
Qed.

Lemma room_students_handler_witness :
  RoomViewSet.students (Settings "rooms.json" "students.json") (Some "1") sample
  = (Ok (Response.mk (DStudents [Student.mk 10 "X" 1; Student.mk 12 "Z" 1]) 200),
     sample)
  /\ RoomViewSet.students (Settings "rooms.json" "students.json") (Some "7")
       (World {["rooms.json" := Doc [room_A; room_B];
                "students.json" := Malformed]} [])
     = (Ok (not_found "Room not found"),
        World {["rooms.json" := Doc [room_A; room_B];
                "students.json" := Malformed]} []).
Proof.
  split.
  - apply (proj2 (room_students_handler (Settings "rooms.json" "students.json")
                    sample [room_A; room_B] (Some "1") 1
                    eq_refl eq_refl eq_refl)
             [student_X; student_Y; student_Z] sound_sample).
    reflexivity.
  - assert (Hread : _read "rooms.json"
                       (World {["rooms.json" := Doc [room_A; room_B];
                                "students.json" := Malformed]} [])
                     = (Ok [room_A; room_B],
                        World {["rooms.json" := Doc [room_A; room_B];
                                "students.json" := Malformed]} []))
      by (apply read_doc; reflexivity).
    apply (proj1 (room_students_handler (Settings "rooms.json" "students.json")
                    _ [room_A; room_B] (Some "7") 7 Hread eq_refl eq_refl)).
    reflexivity.
Defined.

(* ===================================================================== *)
(** ** The handlers that write students *)
(* ===================================================================== *)

Lemma rooms_get_found (self : string) (w : world) (rooms : list record)
    (i : Z) :
  _read self w = (Ok rooms, w) ->
  int_ids rooms = true ->
  exists found,
    JsonRoomsRepository.get self i w = (Ok found, w)
    /\ (found = None <-> absent i rooms = true).
Proof.
  intros Hread Hint. eexists.
  split; [apply (rooms_get_spec _ _ _ i Hread Hint)|].
  unfold absent. rewrite <- find_absent_iff.
  now destruct (List.find (has_id i) rooms).
Qed.

Lemma student_create_handler (st : settings) (w : world)
    (rooms students : list record) (name : string) (room : Z) :
  sound st w rooms students ->
  let n := 1 + max_default (ids_of students) 0 in
  StudentViewSet.create st (Valid (name, room)) w
  = if absent room rooms then (Ok room_not_found, w)
    else (Ok (Response.mk (DStudent (Some (Student.mk n name room))) 201),
          written (students_repo st)
            (students ++ [student_record n name room]) w).
Proof.
  intros (_ & Hrooms & Hstudents & Hint & Hst) n.
  unfold StudentViewSet.create.
  destruct (rooms_get_found _ _ _ room Hrooms Hint) as (found & Hget & Hfound).
  step Hget. destruct found as [r|].
  - destruct (absent room rooms); [discriminate (proj2 Hfound eq_refl)|].
    now step (students_create_spec _ _ _ name room Hstudents
                (int_students_int_ids _ Hst)).
  - now rewrite (proj1 Hfound eq_refl).
Qed.

Lemma student_update_handler (st : settings) (w : world)
    (rooms students : list record) (pk : option string) (i : Z)
    (name : string) (room : Z) :
  sound st w rooms students ->
  pk_id pk = Ok i ->
  StudentViewSet.update st pk (Valid (name, room)) w
  = if absent room rooms then (Ok room_not_found, w)
    else match find_first (has_id i) students with
         | None => (Ok (not_found "Student not found"), w)
         | Some (k, s) =>
             (Ok (Response.mk (DStudent (Some (Student.mk i name room))) 200),
              written (students_repo st)
                (<[k := updated (Some name) (Some room) s]> students) w)
         end.
Proof.
  intros (_ & Hrooms & Hstudents & Hint & Hst) Hpk.
  unfold StudentViewSet.update. rewrite bind_lift, Hpk.
  destruct (rooms_get_found _ _ _ room Hrooms Hint) as (found & Hget & Hfound).
  step Hget. destruct found as [r|].
  - destruct (absent room rooms); [discriminate (proj2 Hfound eq_refl)|].
    destruct (find_first (has_id i) students) as [[k s]|] eqn:F.
    + now step (students_update_full _ _ _ _ name room _ _ Hstudents F).
    + assert (Habs : absent i students = true).
      { unfold absent. destruct (forallb _ students) eqn:E; [reflexivity|].
        destruct (find_first_present _ _ E) as (k & s & F'). congruence. }
      now step (students_update_absent _ _ _ _ (Some name) (Some room)
                  Hstudents Habs).
  - now rewrite (proj1 Hfound eq_refl).
Qed.



Lemma student_move_handler (st : settings) (w : world)
    (rooms students : list record) (pk : option string) (i : Z)
    (serializer : validation Z) :
  sound st w rooms students ->
  pk_id pk = Ok i ->
  StudentViewSet.move st pk serializer w
  = match find_first (has_id i) students with
    | None => (Ok (not_found "Student not found"), w)
    | Some (k, s) =>
        match serializer with
        | Invalid errors => (Ok (invalid "Invalid move payload" errors), w)
        | Valid room =>
            if absent room rooms then (Ok room_not_found, w)
            else (match s !! "name" with
                  | Some n =>
                      Ok (Response.mk
                            (DStudent (Some (Student.mk i (py_str n) room)))
                            200)
                  | None => Raise (KeyError "name")
                  end,
                  written (students_repo st)
                    (<[k := <["room" := VInt room]> s]> students) w)
        end
    end.
Proof.
  intros (_ & Hrooms & Hstudents & Hint & Hst) Hpk.
  unfold StudentViewSet.move. rewrite bind_lift, Hpk.
  step (students_get_spec _ _ _ i Hstudents Hst).
  destruct (find_first (has_id i) students) as [[k s]|] eqn:F.
  - destruct (find_first_spec _ _ _ _ F) as (Hk & Hs & Hfind & _).
    rewrite Hfind. cbn [option_map].
    destruct serializer as [errors | room]; [reflexivity|].
    destruct (rooms_get_found _ _ _ room Hrooms Hint) as (found & Hget & Hfound).
    step Hget. destruct found as [r|].
    + destruct (absent room rooms); [discriminate (proj2 Hfound eq_refl)|].
      unfold JsonStudentsRepository.move, JsonStudentsRepository.update.
      unfold mbind at 1, M_bind at 1.
      step Hstudents. fold (has_id i). rewrite F.
      rewrite (bind_ok _ _ _ _ _ (write_written _ _ w)).
      unfold lift.
      rewrite (has_id_true_int (<["room" := VInt room]> s) i)
        by now rewrite has_id_insert.
      unfold getitem, get. rewrite lookup_insert_eq.
      rewrite lookup_insert_ne by discriminate.
      now destruct (s !! "name").
    + now rewrite (proj1 Hfound eq_refl).
  - assert (Habs : absent i students = true).
    { unfold absent. destruct (forallb _ students) eqn:E; [reflexivity|].
      destruct (find_first_present _ _ E) as (k & s & F'). congruence. }
    now rewrite (find_absent _ _ Habs).
Qed.



(* ===================================================================== *)
(** ** Referential integrity through the handlers *)
(* ===================================================================== *)

Lemma int_students_insert (students : list record) (k : nat) (s s' : record) :
  int_students students = true ->
  students !! k = Some s ->
  id_of s' = id_of s ->
  is_Some (room_of s') ->
  int_students (<[k := s']> students) = true.
Proof.
  revert k. induction students as [|a students IH]; intros [|k]; simpl;
    try discriminate.
  - intros [Ha Hrest]%andb_prop [= ->] Hid Hroom.
    apply andb_true_intro. split; [|exact Hrest].
    apply andb_prop in Ha as [Ha _]. rewrite Hid.
    apply andb_true_intro. split; [exact Ha | now apply bool_decide_eq_true].
  - intros [Ha Hrest]%andb_prop Hk Hid Hroom.
    apply andb_true_intro. split; [exact Ha | now apply (IH k)].
Qed.

Lemma referenced_insert (rooms students : list record) (k : nat)
    (s' : record) (room : Z) :
  referenced rooms students = true ->
  absent room rooms = false ->
  room_of s' = Some room ->
  referenced rooms (<[k := s']> students) = true.
Proof.
  intros Href Hroom Hs'. revert k.
  induction students as [|a students IH]; intros [|k]; simpl in *;
    try reflexivity; apply andb_prop in Href as [Ha Hrest];
    apply andb_true_intro.
  - split; [|exact Hrest]. rewrite Hs'. simpl. now rewrite Hroom.
  - split; [exact Ha | now apply IH].
Qed.

Lemma referenced_snoc (rooms students : list record) (s' : record) (room : Z) :
  referenced rooms students = true ->
  absent room rooms = false ->
  room_of s' = Some room ->
  referenced rooms (students ++ [s']) = true.
Proof.
  intros Href Hroom Hs'. unfold referenced in *.
  rewrite forallb_app, Href. simpl. rewrite Hs'. simpl. now rewrite Hroom.
Qed.

Lemma referenced_more_rooms (rooms rooms' students : list record) :
  (forall i, absent i rooms = false -> absent i rooms' = false) ->
  referenced rooms students = true ->
  referenced rooms' students = true.
Proof.
  intros Hsub Href. unfold referenced in *. rewrite forallb_forall in *.
  intros s Hs. specialize (Href s Hs). apply negb_true_iff in Href.
  apply negb_true_iff. now apply Hsub.
Qed.

Lemma absent_insert (rooms : list record) (k : nat) (r r' : record) (i : Z) :
  rooms !! k = Some r ->
  has_id i r' = has_id i r ->
  absent i (<[k := r']> rooms) = absent i rooms.
Proof.
  revert k. induction rooms as [|a rooms IH]; intros [|k]; simpl;
    try discriminate.
  - intros [= ->] H. unfold absent. simpl. now rewrite H.
  - intros Hk H. unfold absent in *. simpl. now rewrite (IH k Hk H).
Qed.

Lemma integral_students_written (st : settings) (w : world)
    (rooms students students' : list record) :
  sound st w rooms students ->
  int_students students' = true ->
  referenced rooms students' = true ->
  integral st (written (students_repo st) students' w).
Proof.
  intros Hsound Hst Href. exists rooms, students'.
  split; [now apply (sound_students_written _ _ _ students) | exact Href].
Qed.

Lemma integral_rooms_written (st : settings) (w : world)
    (rooms rooms' students : list record) :
  sound st w rooms students ->
  int_ids rooms' = true ->
  referenced rooms' students = true ->
  integral st (written (rooms_repo st) rooms' w).
Proof.
  intros Hsound Hint Href. exists rooms', students.
  split; [now apply (sound_rooms_written _ _ rooms) | exact Href].
Qed.

Lemma pk_raises {A} (pk : option string) (e : exn) (f : Z -> M A) (w : world) :
  pk_id pk = Raise e -> (lift (pk_id pk) ≫= f) w = (Raise e, w).
Proof. intros H. now rewrite bind_lift, H. Qed.

Lemma room_create_handler (st : settings) (w : world) (rooms : list record)
    (name : string) :
  _read (rooms_repo st) w = (Ok rooms, w) ->
  int_ids rooms = true ->
  let n := 1 + max_default (ids_of rooms) 0 in
  RoomViewSet.create st (Valid name) w
  = (Ok (Response.mk (DRoom (Room.mk n name)) 201),
     written (rooms_repo st) (rooms ++ [room_record n name]) w).
Proof.
  intros Hread Hint n. unfold RoomViewSet.create.
  now step (rooms_create_spec _ _ _ name Hread Hint).
Qed.

Lemma room_update_handler (st : settings) (w : world) (rooms : list record)
    (pk : option string) (i : Z) (name : string) :
  _read (rooms_repo st) w = (Ok rooms, w) ->
  pk_id pk = Ok i ->
  RoomViewSet.update st pk (Valid name) w
  = match find_first (has_id i) rooms with
    | None => (Ok (not_found "Room not found"), w)
    | Some (k, r) =>
        (Ok (Response.mk (DRoom (Room.mk i name)) 200),
         written (rooms_repo st) (<[k := <["name" := VStr name]> r]> rooms) w)
    end.
Proof.
  intros Hread Hpk. unfold RoomViewSet.update. rewrite bind_lift, Hpk.
  destruct (find_first (has_id i) rooms) as [[k r]|] eqn:F.
  - now step (rooms_update_spec _ _ _ _ name _ _ Hread F).
  - assert (Habs : absent i rooms = true).
    { unfold absent. destruct (forallb _ rooms) eqn:E; [reflexivity|].
      destruct (find_first_present _ _ E) as (k & r & F'). congruence. }
    now step (rooms_update_absent _ _ _ _ name Hread Habs).
Qed.

Lemma absent_more (rooms : list record) (r : record) (i : Z) :
  absent i rooms = false -> absent i (rooms ++ [r]) = false.
Proof. intros H. unfold absent in *. now rewrite forallb_app, H. Qed.

Lemma integral_tidy : integral (Settings "rooms.json" "students.json") tidy.
Proof.
  exists [room_A; room_B], [student_X; student_Z].
  repeat split. discriminate.
Qed.



(* ===================================================================== *)
(** ** Paths that are not numbers *)
(* ===================================================================== *)

(** X21. The id of the path is converted before anything else is done: when
    [pk] is not the text of an integer, every handler of one record raises
    the error of the conversion (no 400 and no 404 is answered), reads
    nothing further and writes nothing, even [update] with a body the
    serializer rejects. *)
Theorem bad_pk_raises_everywhere (st : settings) (w : world)
    (pk : option string) (e : exn) :
  pk_id pk = Raise e ->
  RoomViewSet.retrieve st pk w = (Raise e, w)
  /\ (forall serializer, RoomViewSet.update st pk serializer w = (Raise e, w))
  /\ RoomViewSet.destroy st pk w = (Raise e, w)
  /\ RoomViewSet.students st pk w = (Raise e, w)
  /\ StudentViewSet.retrieve st pk w = (Raise e, w)
  /\ (forall serializer, StudentViewSet.update st pk serializer w = (Raise e, w))
  /\ StudentViewSet.destroy st pk w = (Raise e, w)
  /\ (forall serializer, StudentViewSet.move st pk serializer w = (Raise e, w)).
Proof.
  intros H. repeat split; intros; now apply pk_raises.
Qed.

Lemma bad_pk_raises_everywhere_witness :
  RoomViewSet.destroy (Settings "rooms.json" "students.json") (Some "one") sample
  = (Raise ValueError, sample)
  /\ StudentViewSet.update (Settings "rooms.json" "students.json") (Some "1.0")
       (Invalid []) sample
     = (Raise ValueError, sample)
  /\ StudentViewSet.retrieve (Settings "rooms.json" "students.json")
       (Some (String "031" "10")) sample
     = (Raise ValueError, sample).
Proof.
  split; [|split].
  - apply (bad_pk_raises_everywhere (Settings "rooms.json" "students.json")
             sample (Some "one") ValueError eq_refl).
  - apply (bad_pk_raises_everywhere (Settings "rooms.json" "students.json")
             sample (Some "1.0") ValueError eq_refl).
  - apply (bad_pk_raises_everywhere (Settings "rooms.json" "students.json")
             sample (Some (String "031" "10")) ValueError eq_refl).
Defined.

(* ===================================================================== *)
(** ** The combined view and the students of a room *)
(* ===================================================================== *)

Lemma combine_distinct (rooms students : list record) :
  room_keys rooms = true ->
  distinct (room_ids rooms) = true ->
  forallb (student_keys (room_ids rooms)) students = true ->
  DataCombiner.combine rooms students = Ok (combine_spec rooms students).
Proof.
  intros Hk Hd Hs. rewrite combine_is_two_loops.
  rewrite (combine_rooms_loop rooms [] Hk Hd). simpl.
  set (d := map (fun r => (get r "id",
                           CombinedRoom.mk (get r "id") (get r "name") []))
                rooms).
  assert (Hkeys : map fst d = room_ids rooms).
  { unfold d, room_ids. rewrite map_map. now apply map_ext. }
  rewrite combine_students_loop; [|now rewrite Hkeys | now rewrite Hkeys].
  simpl. f_equal. unfold dict_values, d, combine_spec.
  rewrite !map_map. now apply map_ext.
Qed.

Lemma room_ids_int (rooms : list record) :
  int_ids rooms = true -> room_ids rooms = map VInt (ids_of rooms).
Proof.
  induction rooms as [|r rooms IH]; intros H; [reflexivity|].
  destruct (int_ids_cons _ _ H) as (z & Hz & Hrooms & ->).
  unfold room_ids in *. simpl. rewrite (IH Hrooms).
  unfold get. now rewrite (id_of_lookup _ _ Hz).
Qed.

Lemma distinct_ints (zs : list Z) :
  NoDup zs -> distinct (map VInt zs) = true.
Proof.
  induction 1 as [|z zs Hz Hnd IH]; [reflexivity|].
  simpl. rewrite IH, andb_true_r. apply negb_true_iff.
  destruct (existsb _ (map VInt zs)) eqn:E; [|reflexivity].
  apply existsb_exists in E as (v & Hv & Hvz).
  apply in_map_iff in Hv as (z' & <- & Hz').
  unfold py_eq in Hvz. simpl in Hvz. apply Z.eqb_eq in Hvz. subst z'.
  now apply list_elem_of_In in Hz'.
Qed.

Lemma room_students_found (st : settings) (w : world)
    (rooms students : list record) (i : Z) :
  sound st w rooms students ->
  absent i rooms = false ->
  RoomViewSet.students st (Some (pretty i)) w
  = (Ok (Response.mk
           (DStudents
              (map to_student
                 (List.filter (fun s => default 0 (room_of s) =? i) students)))
           200), w).
Proof.
  intros (_ & Hrooms & Hstudents & Hint & Hst) Habs.
  unfold RoomViewSet.students. rewrite bind_lift, pk_id_text.
  step (rooms_get_spec _ _ _ i Hrooms Hint).
  destruct (find_present _ _ Habs) as (r & -> & _). cbn [option_map].
  step (students_list_spec _ _ _ None (Some [i]) Hstudents Hst).
  unfold mret, M_ret. do 4 f_equal. f_equal.
  apply filter_ext. intros s. unfold selected. simpl passes at 1.
  apply passes_one.
Qed.


